(** * Upload and chat session of the document Q&A front end

    A shallow embedding of the four TypeScript units of the front end:
    - [components/ChatInterface.tsx]  (module [ChatInterface]),
    - [components/FileUpload.tsx]     (module [FileUpload]),
    - [types/chat.ts]                 (module [Chat]),
    - [pages/index.tsx]               (module [Home]),
    together with the browser around them (module [Page]): the
    transmissions that are in flight and the events that the user and the
    network deliver to the handlers.

    React state is modelled by records, one field per [useState] cell.  A
    handler is a function from the state it closes over to the next state
    and to the callbacks and network commands it issues.  An [async]
    handler is cut at each [await]: one function per segment, the
    segments being driven by the events that settle the awaited promise.

    Modelling boundaries (the parts of the platform that are not in the
    repository):
    - a JavaScript string is a [string] with one character per UTF-16
      code unit: the strings of the model are those whose code units are
      below 256, and the character of code [n] is the code unit [n] (so
      the character 160 is the no-break space U+00A0);
    - a JavaScript number is a rational that binary64 represents;
      arithmetic rounds to nearest-even with 53 bits ([JsNumber.binary64]),
      overflow and subnormal numbers are out of range of the sizes and
      byte counts handled here;
    - the bodies of the two responses are typed as section 6 of the
      specification types them ([Api.UploadResult], [Api.QueryData]); a
      body that [JSON.parse] refuses is [None];
    - the page of a source is the rational value of its JSON numeral,
      read as the binary64 number that the numeral denotes
      ([JsNumber.denoted]), and a [File] is its name, its media type
      and its size, without the bytes. *)

From Stdlib Require Import Bool List String Ascii ZArith NArith QArith.
From Stdlib Require Import Qabs Qround Qpower Lia Lqa Sorted DecimalString.
Import ListNotations.

(* ------------------------------------------------------------------ *)
(** * JavaScript strings *)

Module JsString.
Local Open Scope string_scope.

(** The white space and the line terminators of ECMAScript among the
    code units below 256: TAB, LF, VT, FF, CR, SP and the no-break
    space.  (The others are U+FEFF, U+2028, U+2029 and the rest of the
    category Zs, all above 255.) *)
Definition is_space (c : ascii) : bool :=
  match N_of_ascii c with
  | 9%N | 10%N | 11%N | 12%N | 13%N | 32%N | 160%N => true
  | _ => false
  end.

Fixpoint trimStart (s : string) : string :=
  match s with
  | EmptyString => EmptyString
  | String c r => if is_space c then trimStart r else s
  end.

Fixpoint trimEnd (s : string) : string :=
  match s with
  | EmptyString => EmptyString
  | String c r =>
      match trimEnd r with
      | EmptyString => if is_space c then EmptyString else String c EmptyString
      | r' => String c r'
      end
  end.

(** [s.trim()] *)
Definition trim (s : string) : string := trimEnd (trimStart s).

(** ToBoolean on a string: only the empty string is falsy. *)
Definition truthy (s : string) : bool :=
  match s with EmptyString => false | _ => true end.

(** ToBoolean on a string that may be [null] or [undefined]. *)
Definition truthy_opt (s : option string) : bool :=
  match s with Some s => truthy s | None => false end.

(** [a || b] on optional strings. *)
Definition or_else (a b : option string) : option string :=
  if truthy_opt a then a else b.

(** Decimal numeral of an integer. *)
Definition of_Z (z : Z) : string := NilZero.string_of_int (Z.to_int z).

Fixpoint repeat0 (n : nat) : string :=
  match n with O => EmptyString | S n => String "0" (repeat0 n) end.
End JsString.

(* ------------------------------------------------------------------ *)
(** * JavaScript numbers *)

Module JsNumber.
Local Open Scope Q_scope.

(** Nearest integer, ties to even. *)
Definition rne (x : Q) : Z :=
  let f := Qfloor x in
  match Qcompare (x - inject_Z f) (1 # 2) with
  | Lt => f
  | Gt => (f + 1)%Z
  | Eq => if Z.even f then f else (f + 1)%Z
  end.

(** [ilog2 x] is the integer [e] with [2^e <= x < 2^(e+1)], for [0 < x]. *)
Definition ilog2 (x : Q) : Z :=
  let k := (Z.log2 (Qnum x) - Z.log2 (Zpos (Qden x)))%Z in
  if Qle_bool (2 ^ k) x then k else (k - 1)%Z.

(** The multiple of [2^e] nearest to [x]. *)
Definition at_exponent (e : Z) (x : Q) : Q :=
  inject_Z (rne (x / 2 ^ e)) * 2 ^ e.

(** Rounding of a positive rational to 53 significant bits. *)
Definition round_mag (x : Q) : Q :=
  Qred (at_exponent (ilog2 x - 52) x).

(** The binary64 number nearest to [x]. *)
Definition binary64 (x : Q) : Q :=
  match Qnum x with
  | Z0 => 0
  | Zpos _ => round_mag x
  | Zneg _ => - round_mag (- x)
  end.

(** [Math.round]: the nearest integer, ties towards +infinity. *)
Definition Math_round (x : Q) : Z := Qfloor (x + (1 # 2)).

(** The values a progress computation can take: an integer, or what a
    division by zero leaves. *)
Inductive Number := Num (z : Z) | NaN | Infinity.

(** A byte count (an unsigned integer of the DOM) read as a number. *)
Definition ofN (n : N) : Q := binary64 (inject_Z (Z.of_N n)).

(** [a / b] and [a * b] on numbers. *)
Definition div (a b : Q) : Q := binary64 (a / b).
Definition mul (a b : Q) : Q := binary64 (a * b).

(** ** Number::toString, radix 10 *)

(** The number that a numeral of value [x] denotes, over the whole
    range of binary64: below [2^-1022] the numbers are the multiples of
    [2^-1074], and a value that rounds to [2^1024] or beyond denotes an
    infinity, here [None]. *)
Definition denoted (x : Q) : option Q :=
  let m := Qabs x in
  let r := if Qle_bool (2 ^ (-1022)) m then binary64 m
           else at_exponent (-1074) m in
  if Qle_bool (2 ^ 1024) r then None
  else Some (if Qle_bool 0 x then r else - r).

(** [decade x] is the [n] with [10^(n-1) <= x < 10^n], for [0 < x]. *)
Fixpoint decade_below (fuel : nat) (x : Q) (j : Z) : Z :=
  match fuel with
  | O => j
  | S fuel =>
      if Qle_bool 1 (x * 10 ^ j) then (1 - j)%Z
      else decade_below fuel x (j + 1)%Z
  end.

Definition decade (x : Q) : Z :=
  if Qle_bool 1 x
  then Z.of_nat (String.length (JsString.of_Z (Qfloor x)))
  else decade_below 400 x 1%Z.

(** The digit strings [s] of length [k] placed at decade [n] that read
    back as [x]: [(s, n)] with [10^(k-1) <= s < 10^k] such that
    [s * 10^(n-k)] denotes [x]. *)
Definition reads_back (x : Q) (k n s : Z) : bool :=
  ((10 ^ (k - 1) <=? s) && (s <? 10 ^ k))%Z &&
  match denoted (inject_Z s * 10 ^ (n - k)) with
  | Some r => Qeq_bool r x
  | None => false
  end.

Definition candidates (x : Q) (k n : Z) : list (Z * Z) :=
  let s := Qfloor (x / 10 ^ (n - k)) in
  map (fun s => (s, n))
      (filter (reads_back x k n) [s; (s + 1)%Z]).

Definition distance (x : Q) (k : Z) (c : Z * Z) : Q :=
  Qabs (inject_Z (fst c) * 10 ^ (snd c - k) - x).

(** The candidate closest to [x]; of two equally close, the even one. *)
Fixpoint closest (x : Q) (k : Z) (best : Z * Z) (cs : list (Z * Z)) : Z * Z :=
  match cs with
  | [] => best
  | c :: cs =>
      match Qcompare (distance x k c) (distance x k best) with
      | Lt => closest x k c cs
      | Eq => closest x k (if Z.even (fst c) then c else best) cs
      | Gt => closest x k best cs
      end
  end.

(** The shortest digit string that reads back as [x], with its decade. *)
Fixpoint shortest (fuel : nat) (x : Q) (n0 k : Z) : Z * Z * Z :=
  match fuel with
  | O => (Qfloor x, k, n0)
  | S fuel =>
      match candidates x k n0 ++ candidates x k (n0 + 1) with
      | [] => shortest fuel x n0 (k + 1)%Z
      | c :: cs => let b := closest x k c cs in (fst b, k, snd b)
      end
  end.

Definition exponent_text (e : Z) : string :=
  (String "e" (if (e <? 0)%Z then JsString.of_Z e
               else String "+" (JsString.of_Z e)))%string.

Definition toString_pos (x : Q) : string :=
  let '(s, k, n) := shortest 21 x (decade x) 1%Z in
  let ds := JsString.of_Z s in
  let kn := Z.to_nat k in
  (if ((k <=? n) && (n <=? 21))%Z then
     ds ++ JsString.repeat0 (Z.to_nat (n - k))
   else if ((0 <? n) && (n <=? 21))%Z then
     substring 0 (Z.to_nat n) ds ++ "." ++
     substring (Z.to_nat n) (kn - Z.to_nat n) ds
   else if ((-6 <? n) && (n <=? 0))%Z then
     "0." ++ JsString.repeat0 (Z.to_nat (- n)) ++ ds
   else if (k =? 1)%Z then
     ds ++ exponent_text (n - 1)
   else
     substring 0 1 ds ++ "." ++ substring 1 (kn - 1) ds ++
     exponent_text (n - 1))%string.

(** [String(x)] for a finite number [x], as a template literal
    interpolates it. *)
Definition toString (x : Q) : string :=
  match Qnum x with
  | Z0 => "0"%string
  | Zpos _ => toString_pos x
  | Zneg _ => String "-" (toString_pos (- x))
  end.

(** ToBoolean of the number that [x] denotes is [false]: it is a zero. *)
Definition is_zero (x : Q) : bool :=
  match denoted x with
  | Some r => Qeq_bool r 0
  | None => false
  end.

(** [String(v)] for the number [v] that a numeral of value [x] denotes. *)
Definition literal_toString (x : Q) : string :=
  match denoted x with
  | Some r => toString r
  | None => (if Qle_bool 0 x then "Infinity" else "-Infinity")%string
  end.

(** [String(n)] for an integer [n]. *)
Definition integer_toString (n : Z) : string := literal_toString (inject_Z n).

(** [String(x)] for the result of a progress computation. *)
Definition Number_toString (x : Number) : string :=
  match x with
  | Num z => integer_toString z
  | NaN => "NaN"%string
  | Infinity => "Infinity"%string
  end.
End JsNumber.

(* ------------------------------------------------------------------ *)
(** * types/chat.ts *)

Module Chat.
Record Source := {
  title : option string;
  url : option string;
  page : option Q
}.

Inductive MessageType := user | assistant.

Record ChatMessage := {
  id : option string;
  type : MessageType;
  content : string;
  sources : option (list Source)
}.

(** The object literal [{ type, content }]. *)
Definition message (t : MessageType) (c : string) : ChatMessage :=
  {| id := None; type := t; content := c; sources := None |}.
End Chat.

(* ------------------------------------------------------------------ *)
(** * The two remote calls *)

Module Api.
(** Body of a successful [POST /api/upload]. *)
Record UploadResult := {
  documentId : string;
  documentName : string
}.

(** Body of a successful [POST /api/query]. *)
Record QueryData := {
  answer : string;
  sources : option (list Chat.Source)
}.

(** The object that [handleChatSubmit] hands to [JSON.stringify]. *)
Record QueryBody := {
  body_documentId : option string;
  question : string
}.

(** The arguments of [fetch]. *)
Record Request := {
  req_url : string;
  method : string;
  headers : list (string * string);
  body : QueryBody
}.
End Api.

(* ------------------------------------------------------------------ *)
(** * components/ChatInterface.tsx *)

Module ChatInterface.
Local Open Scope string_scope.

(** The props, [onSendMessage] apart: the handler that receives it is
    the caller's, and [handleSendMessage] is cut where it awaits it. *)
Record ChatInterfaceProps := {
  messages : list Chat.ChatMessage;
  placeholder : option string;
  isLoading : option bool
}.

(** Defaults of the destructured props. *)
Definition placeholder_of (p : ChatInterfaceProps) : string :=
  match placeholder p with Some s => s | None => "Type your message..." end.

Definition isLoading_of (p : ChatInterfaceProps) : bool :=
  match isLoading p with Some b => b | None => false end.

(** [const [input, setInput] = useState('')] *)
Definition State := string.
Definition initial : State := EmptyString.

(** What [handleSendMessage] does up to its [await]. *)
Inductive SendStep :=
| Return
| Await_onSendMessage (message : string).

Definition handleSendMessage (p : ChatInterfaceProps) (input : State) : SendStep :=
  if negb (JsString.truthy (JsString.trim input)) || isLoading_of p
  then Return
  else Await_onSendMessage input.

(** ... and after it: [setInput('')]. *)
Definition handleSendMessage_resumed (input : State) : State := EmptyString.

(** [handleKeyPress]: whether the key sends. *)
Definition handleKeyPress (key : string) (shiftKey : bool) : bool :=
  (key =? "Enter") && negb shiftKey.

(** The [disabled] attributes of the text field and of the button. *)
Definition input_disabled (p : ChatInterfaceProps) : bool := isLoading_of p.

Definition button_disabled (p : ChatInterfaceProps) (input : State) : bool :=
  negb (JsString.truthy (JsString.trim input)) || isLoading_of p.

Definition button_label (p : ChatInterfaceProps) : string :=
  if isLoading_of p then "Sending..." else "Send".

(** The text of one [<li>] of the source list:
    [{source.title || source.url}{source.page && ` (page ${source.page})`}].
    React shows a string as it is, nothing for [undefined], and the
    numeral for a number, so a page that is [0] shows as [0]. *)
Definition render_title (s : Chat.Source) : string :=
  match JsString.or_else (Chat.title s) (Chat.url s) with
  | Some t => t
  | None => EmptyString
  end.

Definition render_page (s : Chat.Source) : string :=
  match Chat.page s with
  | None => EmptyString
  | Some n =>
      if JsNumber.is_zero n then JsNumber.literal_toString n
      else " (page " ++ JsNumber.literal_toString n ++ ")"
  end.

Definition render_source (s : Chat.Source) : string :=
  render_title s ++ render_page s.

(** [message.sources && message.sources.length > 0 && ...]: the items of
    the list, when the list is shown. *)
Definition render_sources (m : Chat.ChatMessage) : option (list string) :=
  match Chat.sources m with
  | None | Some [] => None
  | Some l => Some (map render_source l)
  end.
End ChatInterface.

(* ------------------------------------------------------------------ *)
(** * components/FileUpload.tsx *)

Module FileUpload.
Local Open Scope string_scope.

(** A [File] of the DOM, by the attributes the component reads. *)
Record File := {
  name : string;
  type : string;
  size : N
}.

(** The props, callbacks apart (they are [Callback]s below). *)
Record FileUploadProps := {
  maxFileSize : option N
}.

Definition maxFileSize_of (p : FileUploadProps) : N :=
  match maxFileSize p with Some n => n | None => (5 * 1024 * 1024)%N end.

Record State := {
  file : option File;
  isUploading : bool;
  uploadProgress : JsNumber.Number;
  dragActive : bool
}.

Definition initial : State :=
  {| file := None; isUploading := false;
     uploadProgress := JsNumber.Num 0; dragActive := false |}.

Definition setFile (f : option File) (s : State) : State :=
  {| file := f; isUploading := isUploading s;
     uploadProgress := uploadProgress s; dragActive := dragActive s |}.
Definition setIsUploading (b : bool) (s : State) : State :=
  {| file := file s; isUploading := b;
     uploadProgress := uploadProgress s; dragActive := dragActive s |}.
Definition setUploadProgress (n : JsNumber.Number) (s : State) : State :=
  {| file := file s; isUploading := isUploading s;
     uploadProgress := n; dragActive := dragActive s |}.
Definition setDragActive (b : bool) (s : State) : State :=
  {| file := file s; isUploading := isUploading s;
     uploadProgress := uploadProgress s; dragActive := b |}.

(** A call of one of the two optional callback props. *)
Inductive Callback :=
| onUploadComplete (result : Api.UploadResult)
| onUploadError (error : string).

(** [`File size exceeds ${maxFileSize / (1024 * 1024)}MB limit`] *)
Definition size_message (p : FileUploadProps) : string :=
  "File size exceeds " ++
  JsNumber.toString
    (JsNumber.div (JsNumber.ofN (maxFileSize_of p)) (inject_Z (1024 * 1024))) ++
  "MB limit".

(** [handleFileSelect]; [files] is [e.target.files]. *)
Definition handleFileSelect (p : FileUploadProps) (s : State)
    (files : option (list File)) : State * list Callback :=
  match files with
  | None | Some [] => (s, [])
  | Some (selectedFile :: _) =>
      if negb (type selectedFile =? "application/pdf") then
        (s, [onUploadError "Only PDF files are allowed"])
      else if (maxFileSize_of p <? size selectedFile)%N then
        (s, [onUploadError (size_message p)])
      else
        (setUploadProgress (JsNumber.Num 0) (setFile (Some selectedFile) s), [])
  end.

(** [handleDragOver], [handleDragLeave] *)
Definition handleDragOver (s : State) : State := setDragActive true s.
Definition handleDragLeave (s : State) : State := setDragActive false s.

(** [handleDrop]; [files] is [e.dataTransfer.files]. *)
Definition handleDrop (p : FileUploadProps) (s : State)
    (files : option (list File)) : State * list Callback :=
  let s := setDragActive false s in
  match files with
  | None | Some [] => (s, [])
  | Some (droppedFile :: _) =>
      if negb (type droppedFile =? "application/pdf") then
        (s, [onUploadError "Only PDF files are allowed"])
      else if (maxFileSize_of p <? size droppedFile)%N then
        (s, [onUploadError (size_message p)])
      else
        (setUploadProgress (JsNumber.Num 0) (setFile (Some droppedFile) s), [])
  end.

(** The request that [handleUpload] builds: [xhr.open('POST', '/api/upload')]
    and [xhr.send(formData)]. *)
Record Transmission := {
  method : string;
  url : string;
  formData : list (string * File)
}.

(** What the [try] block of [handleUpload] can end with: [xhr.send]
    returned, or a statement of the block threw. *)
Inductive Thrown :=
| ErrorObject (message : string)
| OtherValue.

Inductive TryOutcome :=
| Sent
| Threw (e : Thrown).

(** [error instanceof Error ? error.message : 'Upload failed'] *)
Definition catch_message (e : Thrown) : string :=
  match e with
  | ErrorObject m => m
  | OtherValue => "Upload failed"
  end.

(** [handleUpload]: the next state, the callbacks, and the transmission
    that [xhr.send] has started, if it has. *)
Definition handleUpload (s : State) (o : TryOutcome)
    : State * list Callback * option Transmission :=
  match file s with
  | None => (s, [], None)
  | Some f =>
      let s := setIsUploading true s in
      match o with
      | Sent =>
          (s, [],
           Some {| method := "POST"; url := "/api/upload";
                   formData := [("file", f)] |})
      | Threw e => (setIsUploading false s, [onUploadError (catch_message e)], None)
      end
  end.

(** A [ProgressEvent] of [xhr.upload]. *)
Record ProgressEvent := {
  lengthComputable : bool;
  loaded : N;
  total : N
}.

(** [Math.round((event.loaded / event.total) * 100)], for a total that
    is not zero. *)
Definition percent (loaded total : N) : Z :=
  JsNumber.Math_round
    (JsNumber.mul
       (JsNumber.div (JsNumber.ofN loaded) (JsNumber.ofN total))
       (inject_Z 100)).

(** The same for any total: [0 / 0] is [NaN], and [x / 0] is [Infinity]
    for the other [x]. *)
Definition progress_of (ev : ProgressEvent) : JsNumber.Number :=
  if (total ev =? 0)%N then
    if (loaded ev =? 0)%N then JsNumber.NaN else JsNumber.Infinity
  else JsNumber.Num (percent (loaded ev) (total ev)).

(** The listener of ['progress']. *)
Definition onprogress (s : State) (ev : ProgressEvent) : State :=
  if lengthComputable ev then setUploadProgress (progress_of ev) s else s.

(** What [xhr] holds when ['load'] fires; [response] is
    [JSON.parse(xhr.responseText)], [None] when it throws. *)
Record LoadEvent := {
  status : Z;
  statusText : string;
  response : option Api.UploadResult
}.

(** [xhr.onload].  When [JSON.parse] throws, the exception leaves the
    handler (the [try] of [handleUpload] was left long before), and
    the statements after it do not run. *)
Definition onload (s : State) (ev : LoadEvent) : State * list Callback :=
  if (status ev =? 200)%Z then
    match response ev with
    | None => (s, [])
    | Some r => (setIsUploading false s, [onUploadComplete r])
    end
  else
    (setIsUploading false s,
     [onUploadError (if JsString.truthy (statusText ev)
                     then statusText ev else "Upload failed")]).

(** [xhr.onerror] *)
Definition onerror (s : State) : State * list Callback :=
  (setIsUploading false s, [onUploadError "Network error during upload"]).

(** [disabled={!file || isUploading}] of the upload button. *)
Definition button_disabled (s : State) : bool :=
  match file s with None => true | Some _ => isUploading s end.

(** The label of the upload button. *)
Definition button_label (s : State) : string :=
  if isUploading s
  then "Uploading... " ++ JsNumber.Number_toString (uploadProgress s) ++ "%"
  else "Upload PDF".
End FileUpload.

(* ------------------------------------------------------------------ *)
(** * pages/index.tsx *)

Module Home.
Local Open Scope string_scope.

Record State := {
  documentId : option string;
  documentName : option string;
  messages : list Chat.ChatMessage
}.

Definition initial : State :=
  {| documentId := None; documentName := None; messages := [] |}.

(** [setMessages(f)] *)
Definition setMessages (f : list Chat.ChatMessage -> list Chat.ChatMessage)
    (s : State) : State :=
  {| documentId := documentId s; documentName := documentName s;
     messages := f (messages s) |}.

(** [prev => [...prev, m]] *)
Definition append (m : Chat.ChatMessage) (prev : list Chat.ChatMessage) :=
  (prev ++ [m])%list.

Definition dquote : string := String (ascii_of_N 34) EmptyString.

Definition uploaded_text (documentName : string) : string :=
  "Document " ++ dquote ++ documentName ++ dquote ++
  " has been uploaded successfully. You can now ask questions about it.".

Definition handleUploadComplete (result : Api.UploadResult) (s : State) : State :=
  {| documentId := Some (Api.documentId result);
     documentName := Some (Api.documentName result);
     messages :=
       [Chat.message Chat.assistant (uploaded_text (Api.documentName result))] |}.

Definition handleUploadError (error : string) (s : State) : State :=
  setMessages
    (fun _ => [Chat.message Chat.assistant ("Upload error: " ++ error)]) s.

Definition upload_first : Chat.ChatMessage :=
  Chat.message Chat.assistant
    "Please upload a document first before asking questions.".

Definition sorry : Chat.ChatMessage :=
  Chat.message Chat.assistant
    "Sorry, there was an error processing your question.".

(** The [fetch] of [handleChatSubmit]. *)
Definition query (documentId : option string) (message : string) : Api.Request :=
  {| Api.req_url := "/api/query";
     Api.method := "POST";
     Api.headers := [("Content-Type", "application/json")];
     Api.body := {| Api.body_documentId := documentId;
                    Api.question := message |} |}.

(** [handleChatSubmit] up to [await fetch(...)]: either it has returned,
    or it waits for the response to the request it has issued. *)
Inductive Submit :=
| Resolved (s : State)
| AwaitFetch (s : State) (request : Api.Request).

Definition handleChatSubmit (s : State) (message : string) : Submit :=
  if negb (JsString.truthy_opt (documentId s)) then
    Resolved (setMessages (append upload_first) s)
  else
    AwaitFetch (setMessages (append (Chat.message Chat.user message)) s)
               (query (documentId s) message).

(** How the promise of [fetch] settles. *)
Inductive FetchOutcome :=
| Rejected
| Responded (ok : bool).

(** The [catch] block. *)
Definition catch (s : State) : State := setMessages (append sorry) s.

(** From the settled [fetch] to [await response.json()]: [Some] when
    the handler has ended in its [catch] block, [None] when it waits
    for the body. *)
Definition handleChatSubmit_fetched (s : State) (o : FetchOutcome) : option State :=
  match o with
  | Rejected => Some (catch s)
  | Responded ok => if negb ok then Some (catch s) else None
  end.

(** From the settled [response.json()] to the end; [data] is [None]
    when the promise is rejected. *)
Definition handleChatSubmit_parsed (s : State) (data : option Api.QueryData) : State :=
  match data with
  | None => catch s
  | Some data =>
      setMessages
        (append {| Chat.id := None; Chat.type := Chat.assistant;
                   Chat.content := Api.answer data;
                   Chat.sources := Api.sources data |}) s
  end.

(** The props that the page passes to [<ChatInterface>] and to
    [<FileUpload>]. *)
Definition chat_props (s : State) : ChatInterface.ChatInterfaceProps :=
  {| ChatInterface.messages := messages s;
     ChatInterface.placeholder :=
       Some "Ask a question about the financial document...";
     ChatInterface.isLoading := None |}.

Definition upload_props : FileUpload.FileUploadProps :=
  {| FileUpload.maxFileSize := None |}.

(** The callbacks that the page passes to [<FileUpload>]. *)
Definition callback (c : FileUpload.Callback) (s : State) : State :=
  match c with
  | FileUpload.onUploadComplete result => handleUploadComplete result s
  | FileUpload.onUploadError error => handleUploadError error s
  end.
End Home.

(* ------------------------------------------------------------------ *)
(** * The page in the browser *)

Module Page.
(** [remove_at i l] and [replace_at i x l] act on position [i] of [l]
    and leave a list that is too short as it is. *)
Fixpoint remove_at {A} (i : nat) (l : list A) : list A :=
  match l, i with
  | [], _ => []
  | _ :: l, O => l
  | x :: l, S i => x :: remove_at i l
  end.

Fixpoint replace_at {A} (i : nat) (y : A) (l : list A) : list A :=
  match l, i with
  | [], _ => []
  | _ :: l, O => y :: l
  | x :: l, S i => x :: replace_at i y l
  end.

(** A submission that has not returned: which [await] it is at. *)
Inductive Stage := AwaitingResponse | AwaitingBody.

Record Pending := {
  request : Api.Request;
  stage : Stage
}.

(** A request that has left the page. *)
Inductive NetworkCall :=
| UploadCall (t : FileUpload.Transmission)
| QueryCall (r : Api.Request).

(** The state of the page: the three components, the upload
    transmissions and the submissions in flight, and every network call
    issued so far, oldest first. *)
Record State := {
  home : Home.State;
  input : ChatInterface.State;
  upload : FileUpload.State;
  xhrs : list FileUpload.Transmission;
  submissions : list Pending;
  calls : list NetworkCall
}.

Definition initial : State :=
  {| home := Home.initial; input := ChatInterface.initial;
     upload := FileUpload.initial; xhrs := []; submissions := [];
     calls := [] |}.

Definition with_home (h : Home.State) (w : State) : State :=
  {| home := h; input := input w; upload := upload w; xhrs := xhrs w;
     submissions := submissions w; calls := calls w |}.
Definition with_input (i : ChatInterface.State) (w : State) : State :=
  {| home := home w; input := i; upload := upload w; xhrs := xhrs w;
     submissions := submissions w; calls := calls w |}.
Definition with_upload (u : FileUpload.State) (w : State) : State :=
  {| home := home w; input := input w; upload := u; xhrs := xhrs w;
     submissions := submissions w; calls := calls w |}.
Definition with_xhrs (x : list FileUpload.Transmission) (w : State) : State :=
  {| home := home w; input := input w; upload := upload w; xhrs := x;
     submissions := submissions w; calls := calls w |}.
Definition with_submissions (q : list Pending) (w : State) : State :=
  {| home := home w; input := input w; upload := upload w; xhrs := xhrs w;
     submissions := q; calls := calls w |}.
Definition with_calls (c : list NetworkCall) (w : State) : State :=
  {| home := home w; input := input w; upload := upload w; xhrs := xhrs w;
     submissions := submissions w; calls := c |}.

(** What the user and the network do.  A transmission or a submission
    in flight is named by its position in [xhrs] or [submissions]. *)
Inductive Event :=
| Change (value : string)
| ClickSend
| KeyPress (key : string) (shiftKey : bool)
| FetchSettled (i : nat) (o : Home.FetchOutcome)
| JsonSettled (i : nat) (data : option Api.QueryData)
| FileInputChange (files : option (list FileUpload.File))
| DragOver
| DragLeave
| Drop (files : option (list FileUpload.File))
| ClickUpload (o : FileUpload.TryOutcome)
| XhrProgress (i : nat) (ev : FileUpload.ProgressEvent)
| XhrLoad (i : nat) (ev : FileUpload.LoadEvent)
| XhrError (i : nat).

(** The callbacks of [<FileUpload>] run the handlers of the page. *)
Definition deliver (cs : list FileUpload.Callback) (h : Home.State) : Home.State :=
  fold_left (fun h c => Home.callback c h) cs h.

(** [handleSendMessage] with [onSendMessage={handleChatSubmit}].  When
    [handleChatSubmit] returns without awaiting, the rest of
    [handleSendMessage] runs before any other event. *)
Definition send (w : State) : State :=
  match ChatInterface.handleSendMessage (Home.chat_props (home w)) (input w) with
  | ChatInterface.Return => w
  | ChatInterface.Await_onSendMessage message =>
      match Home.handleChatSubmit (home w) message with
      | Home.Resolved h =>
          with_input (ChatInterface.handleSendMessage_resumed (input w))
            (with_home h w)
      | Home.AwaitFetch h r =>
          with_calls (calls w ++ [QueryCall r])
            (with_submissions
               (submissions w ++ [{| request := r; stage := AwaitingResponse |}])
               (with_home h w))
      end
  end.

(** A submission returns: it leaves [submissions], and
    [handleSendMessage] resumes after its [await]. *)
Definition returned (i : nat) (h : Home.State) (w : State) : State :=
  with_input (ChatInterface.handleSendMessage_resumed (input w))
    (with_submissions (remove_at i (submissions w)) (with_home h w)).

(** An upload transmission ends: it leaves [xhrs]. *)
Definition ended (i : nat) (r : FileUpload.State * list FileUpload.Callback)
    (w : State) : State :=
  with_xhrs (remove_at i (xhrs w))
    (with_upload (fst r) (with_home (deliver (snd r) (home w)) w)).

(** A handler of [<FileUpload>] that starts no transmission. *)
Definition handled (r : FileUpload.State * list FileUpload.Callback)
    (w : State) : State :=
  with_upload (fst r) (with_home (deliver (snd r) (home w)) w).

(** One event.  A disabled control delivers no event to its handler,
    and an event of a transmission or submission that is not in flight
    does not occur: both leave the state as it is. *)
Definition step (w : State) (e : Event) : State :=
  match e with
  | Change value =>
      if ChatInterface.input_disabled (Home.chat_props (home w)) then w
      else with_input value w
  | ClickSend =>
      if ChatInterface.button_disabled (Home.chat_props (home w)) (input w)
      then w else send w
  | KeyPress key shiftKey =>
      if ChatInterface.input_disabled (Home.chat_props (home w)) then w
      else if ChatInterface.handleKeyPress key shiftKey then send w else w
  | FetchSettled i o =>
      match nth_error (submissions w) i with
      | Some {| request := r; stage := AwaitingResponse |} =>
          match Home.handleChatSubmit_fetched (home w) o with
          | Some h => returned i h w
          | None =>
              with_submissions
                (replace_at i {| request := r; stage := AwaitingBody |}
                   (submissions w)) w
          end
      | _ => w
      end
  | JsonSettled i data =>
      match nth_error (submissions w) i with
      | Some {| request := r; stage := AwaitingBody |} =>
          returned i (Home.handleChatSubmit_parsed (home w) data) w
      | _ => w
      end
  | FileInputChange files =>
      handled (FileUpload.handleFileSelect Home.upload_props (upload w) files) w
  | DragOver => with_upload (FileUpload.handleDragOver (upload w)) w
  | DragLeave => with_upload (FileUpload.handleDragLeave (upload w)) w
  | Drop files =>
      handled (FileUpload.handleDrop Home.upload_props (upload w) files) w
  | ClickUpload o =>
      if FileUpload.button_disabled (upload w) then w
      else
        let '(u, cs, t) := FileUpload.handleUpload (upload w) o in
        let w := handled (u, cs) w in
        match t with
        | Some t => with_calls (calls w ++ [UploadCall t]) (with_xhrs (xhrs w ++ [t]) w)
        | None => w
        end
  | XhrProgress i ev =>
      match nth_error (xhrs w) i with
      | Some _ => with_upload (FileUpload.onprogress (upload w) ev) w
      | None => w
      end
  | XhrLoad i ev =>
      match nth_error (xhrs w) i with
      | Some _ => ended i (FileUpload.onload (upload w) ev) w
      | None => w
      end
  | XhrError i =>
      match nth_error (xhrs w) i with
      | Some _ => ended i (FileUpload.onerror (upload w)) w
      | None => w
      end
  end.

(** A sequence of events, from the first. *)
Definition run (w : State) (es : list Event) : State := fold_left step es w.

(** The states with each event of a sequence, from the first. *)
Fixpoint trace (w : State) (es : list Event) : list State :=
  match es with
  | [] => []
  | e :: es => step w e :: trace (step w e) es
  end.

(** The events of the question field and of the answer service, as
    opposed to those of the upload. *)
Definition chat_event (e : Event) : bool :=
  match e with
  | Change _ | ClickSend | KeyPress _ _ | FetchSettled _ _ | JsonSettled _ _ => true
  | _ => false
  end.

(** At most one upload transmission is in flight, and the flag is up
    while it is. *)
Definition one_transmission (w : State) : Prop :=
  xhrs w = [] \/
  (FileUpload.isUploading (upload w) = true /\ List.length (xhrs w) = 1%nat).

(** The flag is up and no transmission is left to lower it. *)
Definition stuck (w : State) : Prop :=
  FileUpload.isUploading (upload w) = true /\ xhrs w = [].

(** The requests to the answer service among the calls. *)
Definition query_calls (w : State) : list Api.Request :=
  flat_map (fun c => match c with QueryCall r => [r] | UploadCall _ => [] end)
           (calls w).

Definition upload_calls (w : State) : list FileUpload.Transmission :=
  flat_map (fun c => match c with UploadCall t => [t] | QueryCall _ => [] end)
           (calls w).
End Page.

(* ------------------------------------------------------------------ *)
(** * The words of the specification *)

Module Spec.
Local Open Scope string_scope.

(** "clamped to [0,100]" *)
Definition clamp (lo hi z : Z) : Z := Z.max lo (Z.min hi z).

(** "round": the nearest integer of a rational, a half upwards. *)
Definition round (x : Q) : Z := Qfloor (x + (1 # 2)).

(** "p = round(bytesSent/bytesTotal * 100), clamped to [0,100]", in the
    arithmetic of the rationals. *)
Definition progress (bytesSent bytesTotal : N) : Z :=
  clamp 0 100
    (round (inject_Z (Z.of_N bytesSent) / inject_Z (Z.of_N bytesTotal)
            * inject_Z 100)).

(** "the declared media type is exactly the PDF type and size <= a
    configured maximum" *)
Definition selectFile_accepts (maximum : N) (candidate : FileUpload.File) : bool :=
  (FileUpload.type candidate =? "application/pdf") &&
  (FileUpload.size candidate <=? maximum)%N.

(** The upload state of the specification, as far as the component
    holds it: the candidate, the in-flight flag and the progress.  The
    drag indicator is not part of it. *)
Definition upload_state (s : FileUpload.State)
    : option FileUpload.File * bool * JsNumber.Number :=
  (FileUpload.file s, FileUpload.isUploading s, FileUpload.uploadProgress s).

(** "media type is not exactly the PDF type or size exceeds the
    configured maximum" *)
Definition refused (p : FileUpload.FileUploadProps) (f : FileUpload.File) : Prop :=
  FileUpload.type f <> "application/pdf" \/
  (FileUpload.maxFileSize_of p < FileUpload.size f)%N.

(** The error of a refused file: the two checks are made in this order
    by [handleFileSelect] and by [handleDrop]. *)
Definition refusal (p : FileUpload.FileUploadProps) (f : FileUpload.File) : string :=
  if FileUpload.type f =? "application/pdf" then FileUpload.size_message p
  else "Only PDF files are allowed".

(** A progress notification of a transmission of [bytesTotal] bytes:
    the total is known, and no more than the total has been sent. *)
Definition computable (bytesTotal : N) (ev : FileUpload.ProgressEvent) : Prop :=
  FileUpload.lengthComputable ev = true /\
  FileUpload.total ev = bytesTotal /\
  (FileUpload.loaded ev <= bytesTotal)%N.

(** "every message already in the log is still present, unedited and
    in the same position" *)
Definition extends (before after : list Chat.ChatMessage) : Prop :=
  exists tail, after = (before ++ tail)%list.
End Spec.

(* ------------------------------------------------------------------ *)
(** * Sessions used as examples *)

Module Scenario.
Local Open Scope string_scope.

Definition report : FileUpload.File :=
  {| FileUpload.name := "Q3-Report.pdf";
     FileUpload.type := "application/pdf";
     FileUpload.size := 1048576 |}.

Definition photo : FileUpload.File :=
  {| FileUpload.name := "photo.png";
     FileUpload.type := "image/png";
     FileUpload.size := 2048 |}.

Definition scan : FileUpload.File :=
  {| FileUpload.name := "scan.pdf";
     FileUpload.type := "application/pdf";
     FileUpload.size := 6 * 1024 * 1024 |}.

Definition stored : Api.UploadResult :=
  {| Api.documentId := "doc-1"; Api.documentName := "Q3-Report.pdf" |}.

Definition revenue : string := "What is the revenue?".

(** The user picks the report and presses the upload button. *)
Definition uploading : Page.State :=
  Page.run Page.initial
    [Page.FileInputChange (Some [report]); Page.ClickUpload FileUpload.Sent].

(** The server stores it. *)
Definition uploaded : Page.State :=
  Page.step uploading
    (Page.XhrLoad 0 {| FileUpload.status := 200; FileUpload.statusText := "OK";
                       FileUpload.response := Some stored |}).

(** The user types a question. *)
Definition asking : Page.State := Page.step uploaded (Page.Change revenue).

(** The user sends it, and the answer is on its way. *)
Definition asked : Page.State := Page.step asking Page.ClickSend.

(** Instead of storing the report, the server answers 200 with a body
    that is not JSON. *)
Definition garbled : Page.State :=
  Page.step uploading
    (Page.XhrLoad 0 {| FileUpload.status := 200; FileUpload.statusText := "OK";
                       FileUpload.response := None |}).

Definition cited : Chat.Source :=
  {| Chat.title := Some "Income statement"; Chat.url := None;
     Chat.page := Some (inject_Z 12) |}.

Definition reply : Api.QueryData :=
  {| Api.answer := "Revenue was 4.2 billion.";
     Api.sources := Some [cited] |}.

(** A source on the first page of a document whose pages are counted
    from 0, and an answer that cites it. *)
Definition cover : Chat.Source :=
  {| Chat.title := Some "Income statement"; Chat.url := None;
     Chat.page := Some (inject_Z 0) |}.

Definition reply_from_cover : Api.QueryData :=
  {| Api.answer := "Revenue was 4.2 billion.";
     Api.sources := Some [cover] |}.

Definition half_way : FileUpload.ProgressEvent :=
  {| FileUpload.lengthComputable := true;
     FileUpload.loaded := 524288; FileUpload.total := 1048576 |}.

Definition all_sent : FileUpload.ProgressEvent :=
  {| FileUpload.lengthComputable := true;
     FileUpload.loaded := 1048576; FileUpload.total := 1048576 |}.
End Scenario.

(* ------------------------------------------------------------------ *)
(** * What the page has done so far *)

Module History.
Local Open Scope string_scope.

(** Every character of [s] is white space. *)
Fixpoint all_space (s : string) : bool :=
  match s with
  | EmptyString => true
  | String c r => JsString.is_space c && all_space r
  end.

(** A request to the answer service for a document that is set and
    with a question that is not blank. *)
Definition query_of_document (r : Api.Request) : Prop :=
  exists id message,
    r = Home.query (Some id) message /\ id <> EmptyString /\
    JsString.truthy (JsString.trim message) = true.

(** A transmission of one file that the selection accepts, as the page
    configures it. *)
Definition upload_of_accepted (t : FileUpload.Transmission) : Prop :=
  exists f,
    t = {| FileUpload.method := "POST"; FileUpload.url := "/api/upload";
           FileUpload.formData := [("file", f)] |} /\
    Spec.selectFile_accepts (FileUpload.maxFileSize_of Home.upload_props) f = true.

Definition call_ok (c : Page.NetworkCall) : Prop :=
  match c with
  | Page.UploadCall t => upload_of_accepted t
  | Page.QueryCall r => query_of_document r
  end.

(** The candidate, if there is one, is a file that the selection
    accepts. *)
Definition candidate_accepted (w : Page.State) : Prop :=
  match FileUpload.file (Page.upload w) with
  | None => True
  | Some f =>
      Spec.selectFile_accepts (FileUpload.maxFileSize_of Home.upload_props) f = true
  end.

(** A message of the user is not blank. *)
Definition said (m : Chat.ChatMessage) : Prop :=
  Chat.type m = Chat.user ->
  JsString.truthy (JsString.trim (Chat.content m)) = true.

(** The calls that one event can issue from [w]: none, one query for
    the document and with the question of [w], or one upload of the
    candidate of [w]. *)
Inductive Issued (w : Page.State) : list Page.NetworkCall -> Prop :=
| issued_nothing : Issued w []
| issued_query id message :
    Home.documentId (Page.home w) = Some id -> id <> EmptyString ->
    Page.input w = message ->
    JsString.truthy (JsString.trim message) = true ->
    Issued w [Page.QueryCall (Home.query (Some id) message)]
| issued_upload f :
    FileUpload.file (Page.upload w) = Some f ->
    FileUpload.isUploading (Page.upload w) = false ->
    Issued w [Page.UploadCall
                {| FileUpload.method := "POST"; FileUpload.url := "/api/upload";
                   FileUpload.formData := [("file", f)] |}].

(** The page with the drag indicator lowered. *)
Definition undrag (w : Page.State) : Page.State :=
  Page.with_upload (FileUpload.setDragActive false (Page.upload w)) w.

(** The props of an upload limited to [k] MiB. *)
Definition limited (k : N) : FileUpload.FileUploadProps :=
  {| FileUpload.maxFileSize := Some (k * 1024 * 1024)%N |}.

(** Whether the text of the size error names [k] as the limit. *)
Definition names_limit (k : N) : bool :=
  FileUpload.size_message (limited k)
  =? "File size exceeds " ++ JsString.of_Z (Z.of_N k) ++ "MB limit".

(** The whole numbers from [0] to [n]. *)
Definition upto (n : nat) : list N := map N.of_nat (seq 0 (S n)).
End History.

(* ------------------------------------------------------------------ *)
(** * Rounding *)

Module JsNumberFacts.
Import JsNumber.
Local Open Scope Q_scope.

Ltac qcmp H :=
  first [apply Qeq_alt in H | apply Qlt_alt in H | apply Qgt_alt in H].

Lemma rne_cases (x : Q) : rne x = Qfloor x \/ rne x = (Qfloor x + 1)%Z.
Proof.
  unfold rne. destruct (Qcompare _ _); auto. destruct (Z.even _); auto.
Qed.

Lemma floor_bounds (x : Q) : inject_Z (Qfloor x) <= x /\ x < inject_Z (Qfloor x) + 1.
Proof.
  split. - apply Qfloor_le. - pose proof (Qlt_floor x) as H. rewrite inject_Z_plus in H. exact H.
Qed.

Lemma rne_mono (x y : Q) : x <= y -> (rne x <= rne y)%Z.
Proof.
  intros Hxy.
  pose proof (Qfloor_resp_le x y Hxy) as Hf.
  destruct (Z.eq_dec (Qfloor x) (Qfloor y)) as [E | N].
  - unfold rne. rewrite <- E.
    destruct (Qcompare (x - inject_Z (Qfloor x)) (1 # 2)) eqn:Cx;
    destruct (Qcompare (y - inject_Z (Qfloor x)) (1 # 2)) eqn:Cy;
    try (destruct (Z.even (Qfloor x))); try lia;
    qcmp Cx; qcmp Cy; exfalso; lra.
  - destruct (rne_cases x) as [-> | ->], (rne_cases y) as [-> | ->]; lia.
Qed.

Lemma rne_inject (z : Z) : rne (inject_Z z) = z.
Proof.
  unfold rne. rewrite Qfloor_Z.
  destruct (Qcompare (inject_Z z - inject_Z z) (1 # 2)) eqn:C; auto.
  - qcmp C. exfalso. lra.
  - qcmp C. exfalso. lra.
Qed.

Lemma rne_comp (x y : Q) : x == y -> rne x = rne y.
Proof.
  intros E. apply Z.le_antisymm; apply rne_mono; rewrite E; apply Qle_refl.
Qed.


Lemma pow2_pos (e : Z) : 0 < 2 ^ e.
Proof. apply Qpower_0_lt. reflexivity. Qed.

Lemma pow2_add (a b : Z) : 2 ^ (a + b) == 2 ^ a * 2 ^ b.
Proof. apply Qpower_plus. discriminate. Qed.

Lemma pow2_succ (e : Z) : 2 ^ (e + 1) == 2 * 2 ^ e.
Proof. rewrite pow2_add. change (2 ^ 1) with 2. ring. Qed.

Lemma pow2_le (a b : Z) : (a <= b)%Z -> 2 ^ a <= 2 ^ b.
Proof. intros H. apply Qpower_le_compat_l; [exact H | discriminate]. Qed.

Lemma pow2_lt_inv (a b : Z) : 2 ^ a < 2 ^ b -> (a < b)%Z.
Proof. intros H. apply (Qpower_lt_compat_l_inv 2); [exact H | reflexivity]. Qed.

Lemma pow2_log2 (n : Z) :
  (0 < n)%Z -> 2 ^ Z.log2 n <= inject_Z n /\ inject_Z n < 2 * 2 ^ Z.log2 n.
Proof.
  intros Hn. destruct (Z.log2_spec n Hn) as [Hlo Hhi].
  pose proof (Z.log2_nonneg n) as H0.
  rewrite <- pow2_succ.
  change 2 with (inject_Z 2).
  rewrite <- !Zpower_Qpower by lia.
  rewrite <- Zle_Qle, <- Zlt_Qlt. replace (Z.log2 n + 1)%Z with (Z.succ (Z.log2 n)) by lia.
  split; assumption.
Qed.

Lemma ilog2_spec (x : Q) : 0 < x -> 2 ^ ilog2 x <= x /\ x < 2 ^ (ilog2 x + 1).
Proof.
  intros Hx. unfold ilog2.
  destruct x as [n d]. cbn [Qnum Qden].
  assert (Hn : (0 < n)%Z).
  { unfold Qlt in Hx. cbn in Hx. lia. }
  destruct (pow2_log2 n Hn) as [An An'].
  destruct (pow2_log2 (Zpos d) eq_refl) as [Bd Bd'].
  set (ln := Z.log2 n) in *. set (ld := Z.log2 (Zpos d)) in *.
  set (k := (ln - ld)%Z).
  assert (HP : 2 ^ k * 2 ^ ld == 2 ^ ln).
  { rewrite <- pow2_add. replace (k + ld)%Z with ln by (unfold k; lia). reflexivity. }
  assert (Hxd : (n # d) * inject_Z (Zpos d) == inject_Z n).
  { rewrite (Qmake_Qdiv n d). field. discriminate. }
  pose proof (pow2_pos k) as Pk. pose proof (pow2_pos ld) as Pld.
  pose proof (pow2_pos ln) as Pln.
  set (X := n # d) in *. set (D := inject_Z (Zpos d)) in *.
  set (N := inject_Z n) in *.
  set (P := 2 ^ k) in *. set (B := 2 ^ ld) in *. set (A := 2 ^ ln) in *.
  clearbody X D N B A.
  destruct (Qle_bool P X) eqn:Hb.
  - apply Qle_bool_iff in Hb. split; [exact Hb|].
    fold k. rewrite pow2_succ. fold P.
    destruct (Qlt_le_dec X (2 * P)) as [L | G]; [exact L | exfalso].
    assert (0 <= (X - 2 * P) * D) by (apply Qmult_le_0_compat; lra).
    assert (0 <= P * (D - B)) by (apply Qmult_le_0_compat; lra).
    lra.
  - assert (Hlt : X < P).
    { destruct (Qlt_le_dec X P) as [L | G]; [exact L|].
      apply Qle_bool_iff in G. congruence. }
    replace (k - 1 + 1)%Z with k by lia. fold P. split; [| exact Hlt].
    assert (E : 2 * 2 ^ (k - 1) == P).
    { rewrite <- pow2_succ. replace (k - 1 + 1)%Z with k by lia. reflexivity. }
    pose proof (pow2_pos (k - 1)) as Pk1.
    set (P' := 2 ^ (k - 1)) in *. clearbody P'.
    destruct (Qlt_le_dec X P') as [L | G]; [exfalso | exact G].
    assert (0 < (P' - X) * D) by (apply Qmult_lt_0_compat; lra).
    assert (0 <= P' * (2 * B - D)) by (apply Qmult_le_0_compat; lra).
    assert (2 * P' * B == A) by (rewrite E; exact HP).
    lra.
Qed.

Lemma ilog2_unique (x : Q) (e : Z) : 2 ^ e <= x -> x < 2 ^ (e + 1) -> ilog2 x = e.
Proof.
  intros Hlo Hhi.
  assert (Hx : 0 < x) by (pose proof (pow2_pos e); lra).
  destruct (ilog2_spec x Hx) as [Ilo Ihi].
  assert ((ilog2 x < e + 1)%Z) by (apply pow2_lt_inv; lra).
  assert ((e < ilog2 x + 1)%Z) by (apply pow2_lt_inv; lra).
  lia.
Qed.

Lemma ilog2_mono (x y : Q) : 0 < x -> x <= y -> (ilog2 x <= ilog2 y)%Z.
Proof.
  intros Hx Hxy.
  destruct (ilog2_spec x Hx) as [Xlo Xhi].
  destruct (ilog2_spec y) as [Ylo Yhi]; [lra|].
  assert ((ilog2 x < ilog2 y + 1)%Z) by (apply pow2_lt_inv; lra).
  lia.
Qed.


Lemma round_mag_at (x : Q) : round_mag x == at_exponent (ilog2 x - 52) x.
Proof. unfold round_mag, at_exponent. apply Qred_correct. Qed.

Lemma div_pow2_le (e : Z) (x y : Q) : x <= y -> x / 2 ^ e <= y / 2 ^ e.
Proof.
  intros H. unfold Qdiv. apply Qmult_le_compat_r; [exact H|].
  apply Qlt_le_weak, Qinv_lt_0_compat, pow2_pos.
Qed.

Lemma at_exponent_mono (e : Z) (x y : Q) :
  x <= y -> at_exponent e x <= at_exponent e y.
Proof.
  intros H. unfold at_exponent.
  apply Qmult_le_compat_r; [| apply Qlt_le_weak, pow2_pos].
  rewrite <- Zle_Qle. apply rne_mono, div_pow2_le, H.
Qed.

Lemma at_exponent_exact (e z : Z) :
  at_exponent e (inject_Z z * 2 ^ e) == inject_Z z * 2 ^ e.
Proof.
  unfold at_exponent.
  rewrite (rne_comp (inject_Z z * 2 ^ e / 2 ^ e) (inject_Z z)).
  - rewrite rne_inject. reflexivity.
  - field. pose proof (pow2_pos e). lra.
Qed.

Lemma pow2_split (E : Z) (m : Z) :
  (0 <= m)%Z -> 2 ^ E == inject_Z (2 ^ m) * 2 ^ (E - m).
Proof.
  intros Hm. rewrite Zpower_Qpower by exact Hm. change (inject_Z 2) with 2.
  rewrite <- pow2_add. replace (m + (E - m))%Z with E by lia. reflexivity.
Qed.

Lemma round_mag_bounds (x : Q) :
  0 < x -> 2 ^ ilog2 x <= round_mag x /\ round_mag x <= 2 ^ (ilog2 x + 1).
Proof.
  intros Hx. destruct (ilog2_spec x Hx) as [Lo Hi].
  rewrite round_mag_at. set (E := ilog2 x) in *. split.
  - rewrite (pow2_split E 52) at 1 by lia.
    rewrite <- at_exponent_exact. apply at_exponent_mono.
    rewrite <- pow2_split by lia. exact Lo.
  - rewrite (pow2_split (E + 1) 53) by lia.
    replace (E + 1 - 53)%Z with (E - 52)%Z by lia.
    rewrite <- at_exponent_exact. apply at_exponent_mono.
    replace (E - 52)%Z with (E + 1 - 53)%Z by lia.
    rewrite <- pow2_split by lia. apply Qlt_le_weak, Hi.
Qed.

Lemma round_mag_mono (x y : Q) : 0 < x -> x <= y -> round_mag x <= round_mag y.
Proof.
  intros Hx Hxy. assert (Hy : 0 < y) by lra.
  pose proof (ilog2_mono x y Hx Hxy) as He.
  destruct (Z.eq_dec (ilog2 x) (ilog2 y)) as [E | N].
  - rewrite !round_mag_at, E. apply at_exponent_mono, Hxy.
  - destruct (round_mag_bounds x Hx) as [_ Ux].
    destruct (round_mag_bounds y Hy) as [Ly _].
    assert (2 ^ (ilog2 x + 1) <= 2 ^ ilog2 y) by (apply pow2_le; lia).
    lra.
Qed.

Lemma round_mag_pos (x : Q) : 0 < x -> 0 < round_mag x.
Proof.
  intros Hx. destruct (round_mag_bounds x Hx) as [L _].
  pose proof (pow2_pos (ilog2 x)). lra.
Qed.

Lemma Qnum_pos (x : Q) : 0 < x -> exists p, Qnum x = Zpos p.
Proof.
  destruct x as [[|p|p] d]; unfold Qlt; cbn; intros H; try lia. eauto.
Qed.

Lemma Qnum_zero (x : Q) : Qnum x = 0%Z -> x == 0.
Proof. destruct x as [n d]. cbn. intros ->. reflexivity. Qed.

Lemma binary64_pos (x : Q) : 0 < x -> binary64 x = round_mag x.
Proof. intros H. destruct (Qnum_pos x H) as [p E]. unfold binary64. now rewrite E. Qed.

Lemma binary64_nonneg (x : Q) : 0 <= x -> 0 <= binary64 x.
Proof.
  intros H. destruct (Qlt_le_dec 0 x) as [P | Z].
  - rewrite binary64_pos by exact P. apply Qlt_le_weak, round_mag_pos, P.
  - unfold binary64. destruct x as [[|p|p] d]; cbn [Qnum]; try apply Qle_refl.
    + unfold Qle in Z. cbn in Z. lia.
    + unfold Qle in H. cbn in H. lia.
Qed.

Lemma binary64_mono (x y : Q) : 0 <= x -> x <= y -> binary64 x <= binary64 y.
Proof.
  intros Hx Hxy. destruct (Qlt_le_dec 0 x) as [P | Z].
  - rewrite !binary64_pos by lra. apply round_mag_mono; assumption.
  - assert (E : binary64 x == 0).
    { unfold binary64. destruct x as [[|p|p] d]; cbn [Qnum]; try reflexivity.
      - unfold Qle in Z. cbn in Z. lia.
      - unfold Qle in Hx. cbn in Hx. lia. }
    rewrite E. apply binary64_nonneg. lra.
Qed.

Lemma Math_round_mono (x y : Q) : x <= y -> (Math_round x <= Math_round y)%Z.
Proof. intros H. apply Qfloor_resp_le. lra. Qed.


Lemma binary64_1 : binary64 (inject_Z 1) == 1.
Proof. reflexivity. Qed.

Lemma binary64_100 : binary64 (inject_Z 100) == 100.
Proof. reflexivity. Qed.

Lemma ofN_nonneg (n : N) : 0 <= ofN n.
Proof.
  apply binary64_nonneg. change 0 with (inject_Z 0). rewrite <- Zle_Qle. lia.
Qed.

Lemma ofN_mono (a b : N) : (a <= b)%N -> ofN a <= ofN b.
Proof.
  intros H. apply binary64_mono.
  - change 0 with (inject_Z 0). rewrite <- Zle_Qle. lia.
  - rewrite <- Zle_Qle. lia.
Qed.

Lemma ofN_pos (n : N) : (0 < n)%N -> 1 <= ofN n.
Proof.
  intros H. rewrite <- binary64_1. apply binary64_mono.
  - discriminate.
  - rewrite <- Zle_Qle. lia.
Qed.

Lemma div_le_compat (a b c : Q) : 0 < c -> a <= b -> a / c <= b / c.
Proof.
  intros Hc H. unfold Qdiv. apply Qmult_le_compat_r; [exact H|].
  apply Qlt_le_weak, Qinv_lt_0_compat, Hc.
Qed.

Lemma div_nonneg (a c : Q) : 0 <= a -> 0 < c -> 0 <= a / c.
Proof.
  intros Ha Hc. unfold Qdiv. apply Qmult_le_0_compat; [exact Ha|].
  apply Qlt_le_weak, Qinv_lt_0_compat, Hc.
Qed.

(** The quotient of two byte counts, as the division computes it. *)
Lemma ratio_nonneg (l t : N) : (0 < t)%N -> 0 <= div (ofN l) (ofN t).
Proof.
  intros Ht. apply binary64_nonneg, div_nonneg; [apply ofN_nonneg|].
  pose proof (ofN_pos t Ht). lra.
Qed.

Lemma ratio_le_1 (l t : N) : (0 < t)%N -> (l <= t)%N -> div (ofN l) (ofN t) <= 1.
Proof.
  intros Ht Hl. pose proof (ofN_pos t Ht) as Hp.
  rewrite <- binary64_1. apply binary64_mono.
  - apply div_nonneg; [apply ofN_nonneg | lra].
  - apply Qle_shift_div_r; [lra|]. pose proof (ofN_mono l t Hl).
    change (inject_Z 1) with 1. lra.
Qed.

Lemma ratio_mono (l1 l2 t : N) :
  (0 < t)%N -> (l1 <= l2)%N -> div (ofN l1) (ofN t) <= div (ofN l2) (ofN t).
Proof.
  intros Ht Hl. pose proof (ofN_pos t Ht) as Hp. apply binary64_mono.
  - apply div_nonneg; [apply ofN_nonneg | lra].
  - apply div_le_compat; [lra | apply ofN_mono, Hl].
Qed.

Lemma percent_mono (l1 l2 t : N) :
  (0 < t)%N -> (l1 <= l2)%N -> (FileUpload.percent l1 t <= FileUpload.percent l2 t)%Z.
Proof.
  intros Ht Hl. apply Math_round_mono, binary64_mono.
  - apply Qmult_le_0_compat; [apply ratio_nonneg, Ht | discriminate].
  - apply Qmult_le_compat_r; [apply ratio_mono; assumption | discriminate].
Qed.

Lemma percent_range (l t : N) :
  (0 < t)%N -> (l <= t)%N -> (0 <= FileUpload.percent l t <= 100)%Z.
Proof.
  intros Ht Hl. unfold FileUpload.percent.
  pose proof (ratio_nonneg l t Ht) as H0. pose proof (ratio_le_1 l t Ht Hl) as H1.
  set (q := div (ofN l) (ofN t)) in *. clearbody q.
  assert (P0 : 0 <= mul q (inject_Z 100)).
  { apply binary64_nonneg. apply Qmult_le_0_compat; [exact H0 | discriminate]. }
  assert (P1 : mul q (inject_Z 100) <= 100).
  { rewrite <- binary64_100. apply binary64_mono.
    - apply Qmult_le_0_compat; [exact H0 | discriminate].
    - change (inject_Z 100) with 100. lra. }
  split.
  - change 0%Z with (Math_round 0). apply Math_round_mono, P0.
  - change 100%Z with (Math_round 100). apply Math_round_mono, P1.
Qed.

(** ** The error of one rounding *)

Lemma rne_error (y : Q) :
  y - (1 # 2) <= inject_Z (rne y) /\ inject_Z (rne y) <= y + (1 # 2).
Proof.
  destruct (floor_bounds y) as [Lo Hi]. unfold rne.
  destruct (Qcompare (y - inject_Z (Qfloor y)) (1 # 2)) eqn:C; qcmp C.
  - destruct (Z.even (Qfloor y)); rewrite ?inject_Z_plus; change (inject_Z 1) with 1;
      split; lra.
  - split; lra.
  - rewrite inject_Z_plus. change (inject_Z 1) with 1. split; lra.
Qed.

Lemma at_exponent_error (e : Z) (x : Q) :
  x - 2 ^ e * (1 # 2) <= at_exponent e x /\ at_exponent e x <= x + 2 ^ e * (1 # 2).
Proof.
  pose proof (pow2_pos e) as P. unfold at_exponent.
  destruct (rne_error (x / 2 ^ e)) as [Lo Hi].
  assert (E : x == x / 2 ^ e * 2 ^ e) by (field; lra).
  set (y := x / 2 ^ e) in *. set (r := inject_Z (rne y)) in *. clearbody y r.
  assert (0 <= (r - (y - (1 # 2))) * 2 ^ e) by (apply Qmult_le_0_compat; lra).
  assert (0 <= (y + (1 # 2) - r) * 2 ^ e) by (apply Qmult_le_0_compat; lra).
  set (p := 2 ^ e) in *. clearbody p. split; lra.
Qed.

Lemma ilog2_below (k : Z) (x : Q) : 0 < x -> x < 2 ^ k -> (ilog2 x < k)%Z.
Proof.
  intros Hx Hk. destruct (ilog2_spec x Hx) as [Lo _].
  apply pow2_lt_inv. lra.
Qed.

(** Below [2^k] a rounding is off by [2^(k-54)] at most. *)
Lemma binary64_error (k : Z) (x : Q) :
  0 <= x -> x < 2 ^ k ->
  x - 2 ^ (k - 54) <= binary64 x /\ binary64 x <= x + 2 ^ (k - 54).
Proof.
  intros Hx Hk. pose proof (pow2_pos (k - 54)) as P.
  destruct (Qlt_le_dec 0 x) as [Pos | Z].
  - rewrite (binary64_pos x Pos), round_mag_at.
    destruct (at_exponent_error (ilog2 x - 52) x) as [Lo Hi].
    pose proof (ilog2_below k x Pos Hk) as I.
    assert (H : 2 ^ (ilog2 x - 52) * (1 # 2) <= 2 ^ (k - 54)).
    { assert (S : 2 ^ (ilog2 x - 52) == 2 * 2 ^ (ilog2 x - 53)).
      { rewrite <- pow2_succ. replace (ilog2 x - 53 + 1)%Z with (ilog2 x - 52)%Z by lia.
        reflexivity. }
      rewrite S. assert (2 ^ (ilog2 x - 53) <= 2 ^ (k - 54)) by (apply pow2_le; lia).
      lra. }
    split; lra.
  - assert (E : binary64 x == 0).
    { transitivity (binary64 0); [|reflexivity].
      apply Qle_antisym; apply binary64_mono; lra. }
    rewrite E. split; lra.
Qed.

(** An integer below [2^53] is a binary64 number. *)
Lemma at_exponent_comp (e : Z) (x y : Q) : x == y -> at_exponent e x == at_exponent e y.
Proof.
  intros E. apply Qle_antisym; apply at_exponent_mono; rewrite E; apply Qle_refl.
Qed.

Lemma binary64_integer (n : Z) :
  (0 <= n < 2 ^ 53)%Z -> binary64 (inject_Z n) == inject_Z n.
Proof.
  intros [H0 H1]. destruct (Z.eq_dec n 0) as [-> | N]; [reflexivity|].
  assert (Pos : 0 < inject_Z n).
  { change 0 with (inject_Z 0). rewrite <- Zlt_Qlt. lia. }
  rewrite (binary64_pos _ Pos), round_mag_at.
  destruct (ilog2_spec _ Pos) as [Lo Hi].
  set (E := ilog2 (inject_Z n)) in *.
  assert (E53 : (E < 53)%Z).
  { apply pow2_lt_inv. apply Qle_lt_trans with (inject_Z n); [exact Lo|].
    change 2 with (inject_Z 2). rewrite <- Zpower_Qpower by lia.
    rewrite <- Zlt_Qlt. exact H1. }
  assert (E0 : (0 <= E)%Z).
  { assert (0 < E + 1)%Z; [|lia]. apply pow2_lt_inv.
    apply Qle_lt_trans with (inject_Z n); [|exact Hi].
    change (2 ^ 0) with (inject_Z 1). rewrite <- Zle_Qle. lia. }
  assert (S : inject_Z n == inject_Z (n * 2 ^ (52 - E)) * 2 ^ (E - 52)).
  { rewrite inject_Z_mult, Zpower_Qpower by lia. change (inject_Z 2) with 2.
    rewrite <- Qmult_assoc, <- pow2_add.
    replace (52 - E + (E - 52))%Z with 0%Z by lia. change (2 ^ 0) with 1. ring. }
  rewrite (at_exponent_comp _ _ _ S), at_exponent_exact. symmetry. exact S.
Qed.

Lemma ofN_exact (n : N) : (n < 2 ^ 53)%N -> ofN n == inject_Z (Z.of_N n).
Proof.
  intros H. apply binary64_integer. split; [lia|].
  change (2 ^ 53)%Z with (Z.of_N (2 ^ 53)). lia.
Qed.

Lemma binary64_comp (x y : Q) : 0 <= x -> x == y -> binary64 x == binary64 y.
Proof.
  intros Hx E. assert (Hy : 0 <= y) by (rewrite <- E; exact Hx).
  apply Qle_antisym; apply binary64_mono; try assumption;
    rewrite E; apply Qle_refl.
Qed.

Lemma Math_round_comp (x y : Q) : x == y -> Math_round x = Math_round y.
Proof. intros E. apply Z.le_antisymm; apply Math_round_mono; rewrite E; apply Qle_refl. Qed.

(** ** The floor of a number close to a fraction *)

Lemma floor_near_fraction (n d : Z) (z : Q) :
  (0 < d)%Z ->
  inject_Z n - 1 < z * inject_Z d -> z * inject_Z d < inject_Z n + 1 ->
  (n / d - 1 <= Qfloor z <= n / d)%Z /\
  ((n mod d <> 0)%Z -> Qfloor z = (n / d)%Z).
Proof.
  intros Hd Lo Hi. destruct (floor_bounds z) as [Fl Fu].
  set (k := Qfloor z) in *.
  assert (Dq : 0 < inject_Z d) by (change 0 with (inject_Z 0); rewrite <- Zlt_Qlt; lia).
  assert (U : (k * d <= n)%Z).
  { assert (inject_Z (k * d) < inject_Z (n + 1)); [|rewrite <- Zlt_Qlt in *; lia].
    rewrite inject_Z_mult, inject_Z_plus. change (inject_Z 1) with 1.
    assert (0 <= (z - inject_Z k) * inject_Z d) by (apply Qmult_le_0_compat; lra).
    set (K := inject_Z k) in *. set (D := inject_Z d) in *. set (N := inject_Z n) in *.
    clearbody K D N. lra. }
  assert (L : (n <= (k + 1) * d)%Z).
  { assert (inject_Z n < inject_Z ((k + 1) * d + 1)); [|rewrite <- Zlt_Qlt in *; lia].
    rewrite inject_Z_plus, inject_Z_mult, inject_Z_plus.
    change (inject_Z 1) with 1.
    assert (0 < (inject_Z k + 1 - z) * inject_Z d) by (apply Qmult_lt_0_compat; lra).
    set (K := inject_Z k) in *. set (D := inject_Z d) in *. set (N := inject_Z n) in *.
    clearbody K D N. lra. }
  assert (A : (k <= n / d)%Z) by (apply Z.div_le_lower_bound; lia).
  assert (B : (n / d <= k + 1)%Z) by (apply Z.div_le_upper_bound; lia).
  split; [lia|]. intros M.
  assert (n <> (k + 1) * d)%Z.
  { intros E. apply M. rewrite E. apply Z.mod_mul. lia. }
  assert (n / d < k + 1)%Z by (apply Z.div_lt_upper_bound; lia). lia.
Qed.

(** ** The percentage against the exact one *)

Lemma exact_round (l t : Z) :
  (0 < t)%Z ->
  Spec.round (inject_Z l / inject_Z t * inject_Z 100) = ((200 * l + t) / (2 * t))%Z.
Proof.
  intros Ht. unfold Spec.round. rewrite Zdiv_Qdiv. apply Qfloor_comp.
  assert (~ inject_Z t == 0).
  { intros E. assert (t = 0)%Z by (apply inject_Z_injective; exact E). lia. }
  rewrite !inject_Z_plus, !inject_Z_mult. change (inject_Z 200) with 200.
  change (inject_Z 100) with 100. change (inject_Z 2) with 2. field. assumption.
Qed.

Lemma percent_near_exact (l t : N) :
  (0 < t < 2 ^ 44)%N -> (l <= t)%N ->
  let n := (200 * Z.of_N l + Z.of_N t)%Z in
  let d := (2 * Z.of_N t)%Z in
  (n / d - 1 <= FileUpload.percent l t <= n / d)%Z /\
  ((n mod d <> 0)%Z -> FileUpload.percent l t = (n / d)%Z).
Proof.
  intros [Ht0 Ht1] Hl n d.
  assert (Hl53 : (l < 2 ^ 53)%N).
  { apply N.le_lt_trans with t; [exact Hl|]. apply N.lt_trans with (2 ^ 44)%N; [exact Ht1 | reflexivity]. }
  assert (Ht53 : (t < 2 ^ 53)%N) by (apply N.lt_trans with (2 ^ 44)%N; [exact Ht1 | reflexivity]).
  set (L := inject_Z (Z.of_N l)). set (T := inject_Z (Z.of_N t)).
  assert (T1 : 1 <= T).
  { unfold T. change 1 with (inject_Z 1). rewrite <- Zle_Qle. lia. }
  assert (L0 : 0 <= L).
  { unfold L. change 0 with (inject_Z 0). rewrite <- Zle_Qle. lia. }
  assert (LT : L <= T) by (unfold L, T; rewrite <- Zle_Qle; lia).
  assert (T45 : T * 2 <= 2 ^ 45).
  { unfold T. change (2 ^ 45) with (inject_Z (2 ^ 45)). change 2 with (inject_Z 2) at 1.
    rewrite <- inject_Z_mult, <- Zle_Qle.
    assert (Z.of_N t < Z.of_N (2 ^ 44))%Z by lia.
    change (Z.of_N (2 ^ 44)) with (2 ^ 44)%Z in *. lia. }
  set (r := L / T).
  assert (R0 : 0 <= r) by (apply div_nonneg; lra).
  assert (R1 : r <= 1) by (unfold r; apply Qle_shift_div_r; lra).
  assert (RT : r * T == L) by (unfold r; field; lra).
  (* the quotient *)
  set (q := div (ofN l) (ofN t)).
  assert (Q : q == binary64 r).
  { unfold q, div. apply binary64_comp.
    - apply div_nonneg; [apply ofN_nonneg | pose proof (ofN_pos t Ht0); lra].
    - unfold r, L, T. rewrite (ofN_exact l Hl53), (ofN_exact t Ht53). reflexivity. }
  destruct (binary64_error 1 r R0) as [Ql Qu]; [change (2 ^ 1) with 2; lra|].
  change (2 ^ (1 - 54)) with (1 # 2 ^ 53) in Ql, Qu. rewrite <- Q in Ql, Qu.
  assert (Q0 : 0 <= q) by (rewrite Q; apply binary64_nonneg, R0).
  assert (Q1 : q <= 1).
  { rewrite Q. rewrite <- binary64_1. apply binary64_mono; [exact R0|].
    change (inject_Z 1) with 1. exact R1. }
  (* the product *)
  set (p := mul q (inject_Z 100)).
  assert (P : p - 100 * r <= 164 # 9007199254740992 /\
              - (164 # 9007199254740992) <= p - 100 * r).
  { assert (Y0 : 0 <= q * inject_Z 100) by (change (inject_Z 100) with 100; lra).
    assert (Y1 : q * inject_Z 100 < 2 ^ 7).
    { change (inject_Z 100) with 100. change (2 ^ 7) with 128. lra. }
    destruct (binary64_error 7 _ Y0 Y1) as [Pl Pu].
    change (2 ^ (7 - 54)) with (1 # 140737488355328) in Pl, Pu.
    change (inject_Z 100) with 100 in Pl, Pu.
    change (1 # 2 ^ 53) with (1 # 9007199254740992) in Ql, Qu.
    change (binary64 (q * 100)) with p in Pl, Pu.
    clearbody p q. split; lra. }
  destruct P as [Pu Pl].
  change (2 ^ 45) with 35184372088832 in T45.
  unfold FileUpload.percent. fold q. fold p. clearbody p q.
  assert (E : (p + (1 # 2)) * inject_Z d
              == inject_Z n + (p - 100 * r) * (2 * T)).
  { unfold n, d. rewrite !inject_Z_plus, !inject_Z_mult. fold L T.
    change (inject_Z 200) with 200. change (inject_Z 2) with 2.
    rewrite <- RT. ring. }
  assert (Bu : (p - 100 * r) * (2 * T) < 1).
  { assert (0 <= ((164 # 9007199254740992) - (p - 100 * r)) * (2 * T))
      by (apply Qmult_le_0_compat; lra).
    lra. }
  assert (Bl : -1 < (p - 100 * r) * (2 * T)).
  { assert (0 <= ((p - 100 * r) + (164 # 9007199254740992)) * (2 * T))
      by (apply Qmult_le_0_compat; lra).
    lra. }
  unfold Math_round.
  apply floor_near_fraction; [lia | rewrite E; lra | rewrite E; lra].
Qed.

(** The division and the product round as binary64 does: 29 of 200 bytes
    is 14.499999999999998 per cent, which [Math.round] takes to 14. *)
Example percent_29_of_200 : FileUpload.percent 29 200 = 14%Z.
Proof. vm_compute. reflexivity. Qed.
End JsNumberFacts.
Import JsNumberFacts.

Local Open Scope string_scope.
Local Open Scope list_scope.

(* ------------------------------------------------------------------ *)
(** * Lemmas on the handlers *)

(** ** The validation of a candidate *)

Lemma pdf_eqb_false (t : string) : t <> "application/pdf" -> (t =? "application/pdf") = false.
Proof. intros H. apply String.eqb_neq, H. Qed.

Lemma select_refused p s f rest :
  Spec.refused p f ->
  FileUpload.handleFileSelect p s (Some (f :: rest))
  = (s, [FileUpload.onUploadError (Spec.refusal p f)]).
Proof.
  unfold Spec.refused, Spec.refusal, FileUpload.handleFileSelect.
  intros [T | Z].
  - rewrite (pdf_eqb_false _ T). reflexivity.
  - destruct (FileUpload.type f =? "application/pdf"); [|reflexivity].
    cbn [negb]. apply N.ltb_lt in Z. rewrite Z. reflexivity.
Qed.

Lemma drop_is_select p s files :
  FileUpload.handleDrop p s files
  = FileUpload.handleFileSelect p (FileUpload.handleDragLeave s) files.
Proof. reflexivity. Qed.

Lemma select_accepted p s f rest :
  Spec.selectFile_accepts (FileUpload.maxFileSize_of p) f = true ->
  FileUpload.handleFileSelect p s (Some (f :: rest))
  = (FileUpload.setUploadProgress (JsNumber.Num 0)
       (FileUpload.setFile (Some f) s), []).
Proof.
  unfold Spec.selectFile_accepts, FileUpload.handleFileSelect.
  intros H. apply andb_prop in H. destruct H as [T Z].
  rewrite T. cbn [negb]. apply N.leb_le in Z.
  destruct (N.ltb_spec (FileUpload.maxFileSize_of p) (FileUpload.size f)); [lia|].
  reflexivity.
Qed.

Lemma accepts_false_refused p f :
  Spec.selectFile_accepts (FileUpload.maxFileSize_of p) f = false <-> Spec.refused p f.
Proof.
  unfold Spec.selectFile_accepts, Spec.refused. split.
  - intros H. apply andb_false_iff in H. destruct H as [T | Z].
    + left. apply String.eqb_neq, T.
    + right. apply N.leb_gt, Z.
  - intros [T | Z]; apply andb_false_iff.
    + left. apply String.eqb_neq, T.
    + right. apply N.leb_gt, Z.
Qed.

Lemma default_size_message :
  FileUpload.size_message Home.upload_props = "File size exceeds 5MB limit".
Proof. vm_compute. reflexivity. Qed.

(** ** The log under the handlers of the page *)

Lemma extends_refl l : Spec.extends l l.
Proof. exists []. symmetry. apply app_nil_r. Qed.

Lemma extends_append m l : Spec.extends l (Home.append m l).
Proof. exists [m]. reflexivity. Qed.

Create HintDb log.
#[local] Hint Resolve extends_refl extends_append : log.

Lemma submit_extends h message :
  match Home.handleChatSubmit h message with
  | Home.Resolved h' | Home.AwaitFetch h' _ =>
      Spec.extends (Home.messages h) (Home.messages h')
  end.
Proof.
  unfold Home.handleChatSubmit.
  destruct (negb (JsString.truthy_opt (Home.documentId h))); cbn; auto with log.
Qed.

Lemma fetched_extends h o h' :
  Home.handleChatSubmit_fetched h o = Some h' ->
  Spec.extends (Home.messages h) (Home.messages h').
Proof.
  destruct o as [| [|]]; cbn; intros E; inversion E; subst; cbn; auto with log.
Qed.

Lemma parsed_extends h data :
  Spec.extends (Home.messages h) (Home.messages (Home.handleChatSubmit_parsed h data)).
Proof. destruct data; cbn; auto with log. Qed.

Lemma send_extends w :
  Spec.extends (Home.messages (Page.home w)) (Home.messages (Page.home (Page.send w))).
Proof.
  unfold Page.send.
  destruct (ChatInterface.handleSendMessage _ _); [auto with log|].
  pose proof (submit_extends (Page.home w) message) as H.
  destruct (Home.handleChatSubmit (Page.home w) message); exact H.
Qed.

Lemma chat_event_extends w e :
  Page.chat_event e = true ->
  Spec.extends (Home.messages (Page.home w))
               (Home.messages (Page.home (Page.step w e))).
Proof.
  destruct e; try discriminate; intros _; cbn [Page.step].
  - destruct (ChatInterface.input_disabled _); auto with log.
  - destruct (ChatInterface.button_disabled _ _); auto using send_extends with log.
  - destruct (ChatInterface.input_disabled _); auto with log.
    destruct (ChatInterface.handleKeyPress _ _); auto using send_extends with log.
  - destruct (nth_error _ _) as [[r [|]]|]; auto with log.
    destruct (Home.handleChatSubmit_fetched _ _) eqn:E; cbn; auto with log.
    eapply fetched_extends, E.
  - destruct (nth_error _ _) as [[r [|]]|]; cbn; auto using parsed_extends with log.
Qed.

(** ** The callbacks of the upload *)

Lemma select_callbacks p s files :
  snd (FileUpload.handleFileSelect p s files) = [] \/
  exists error, snd (FileUpload.handleFileSelect p s files) = [FileUpload.onUploadError error].
Proof.
  unfold FileUpload.handleFileSelect. destruct files as [[|f rest]|]; cbn; auto.
  destruct (negb _); cbn; eauto. destruct (N.ltb _ _); cbn; eauto.
Qed.

Ltac one_callback :=
  first [ left; reflexivity
        | right; eexists (FileUpload.onUploadError _); reflexivity
        | right; eexists (FileUpload.onUploadComplete _); reflexivity ].

Lemma upload_event_callback w e :
  Page.chat_event e = false ->
  Page.home (Page.step w e) = Page.home w \/
  exists c, Page.home (Page.step w e) = Home.callback c (Page.home w).
Proof.
  destruct e; try discriminate; intros _; cbn [Page.step]; auto.
  - destruct (select_callbacks Home.upload_props (Page.upload w) files) as [E | [x E]];
      unfold Page.handled; rewrite E; cbn; one_callback.
  - rewrite drop_is_select.
    destruct (select_callbacks Home.upload_props
                (FileUpload.handleDragLeave (Page.upload w)) files) as [E | [x E]];
      unfold Page.handled; rewrite E; cbn; one_callback.
  - destruct (FileUpload.button_disabled _); auto.
    unfold FileUpload.handleUpload.
    destruct (FileUpload.file _); cbn; auto. destruct o; cbn; one_callback.
  - destruct (nth_error _ _); auto.
  - destruct (nth_error _ _); auto.
    unfold Page.ended, FileUpload.onload.
    destruct (Z.eqb _ _); cbn; try one_callback.
    destruct (FileUpload.response ev); cbn; one_callback.
  - destruct (nth_error _ _); auto. cbn. one_callback.
Qed.

(** ** What an event leaves of the upload *)

Lemma select_keeps_flag p s files :
  FileUpload.isUploading (fst (FileUpload.handleFileSelect p s files))
  = FileUpload.isUploading s.
Proof.
  unfold FileUpload.handleFileSelect. destruct files as [[|f rest]|]; cbn; auto.
  destruct (negb _); cbn; auto. destruct (N.ltb _ _); cbn; auto.
Qed.

Lemma progress_keeps_flag s ev :
  FileUpload.isUploading (FileUpload.onprogress s ev) = FileUpload.isUploading s.
Proof. unfold FileUpload.onprogress. destruct (FileUpload.lengthComputable ev); reflexivity. Qed.

Lemma send_frame w :
  Page.upload (Page.send w) = Page.upload w /\ Page.xhrs (Page.send w) = Page.xhrs w /\
  Page.upload_calls (Page.send w) = Page.upload_calls w.
Proof.
  unfold Page.send. destruct (ChatInterface.handleSendMessage _ _); auto.
  destruct (Home.handleChatSubmit _ _); cbn; auto.
  repeat split. unfold Page.upload_calls. cbn. rewrite flat_map_app. cbn.
  apply app_nil_r.
Qed.

Lemma chat_event_frame w e :
  Page.chat_event e = true ->
  Page.upload (Page.step w e) = Page.upload w /\
  Page.xhrs (Page.step w e) = Page.xhrs w /\
  Page.upload_calls (Page.step w e) = Page.upload_calls w.
Proof.
  destruct e; try discriminate; intros _; cbn [Page.step].
  - destruct (ChatInterface.input_disabled _); auto.
  - destruct (ChatInterface.button_disabled _ _); auto using send_frame.
  - destruct (ChatInterface.input_disabled _); auto.
    destruct (ChatInterface.handleKeyPress _ _); auto using send_frame.
  - destruct (nth_error _ _) as [[r [|]]|]; auto.
    destruct (Home.handleChatSubmit_fetched _ _); cbn; auto.
  - destruct (nth_error _ _) as [[r [|]]|]; cbn; auto.
Qed.

Lemma nth_error_one {A} (l : list A) (i : nat) (x : A) :
  List.length l = 1%nat -> nth_error l i = Some x -> Page.remove_at i l = [].
Proof.
  destruct l as [|a [|b l]]; try discriminate. intros _.
  destruct i as [|[|i]]; cbn; try discriminate; reflexivity.
Qed.

(** ** At most one transmission *)

Lemma one_transmission_step w e :
  Page.one_transmission w -> Page.one_transmission (Page.step w e).
Proof.
  unfold Page.one_transmission. intros H.
  destruct (Page.chat_event e) eqn:C.
  { destruct (chat_event_frame w e C) as (-> & -> & _). exact H. }
  destruct e; try discriminate; cbn [Page.step].
  - unfold Page.handled. cbn. rewrite select_keeps_flag. exact H.
  - exact H.
  - exact H.
  - unfold Page.handled. cbn. rewrite drop_is_select, select_keeps_flag. exact H.
  - unfold FileUpload.button_disabled, FileUpload.handleUpload.
    destruct (FileUpload.file (Page.upload w)) eqn:F; [|exact H].
    destruct (FileUpload.isUploading (Page.upload w)) eqn:U; [rewrite U; exact H|].
    destruct H as [X | [X _]]; [|discriminate].
    destruct o; cbn; rewrite X; cbn; auto.
  - destruct (nth_error _ _); [|exact H]. cbn. rewrite progress_keeps_flag. exact H.
  - destruct (nth_error _ _) eqn:N; [|exact H]. left. cbn.
    destruct H as [X | [_ L]].
    + rewrite X in N. destruct i; discriminate.
    + eapply nth_error_one; eassumption.
  - destruct (nth_error _ _) eqn:N; [|exact H]. left. cbn.
    destruct H as [X | [_ L]].
    + rewrite X in N. destruct i; discriminate.
    + eapply nth_error_one; eassumption.
Qed.

Lemma one_transmission_run es : forall w,
  Page.one_transmission w -> Page.one_transmission (Page.run w es).
Proof.
  induction es as [|e es IH]; intros w H; cbn; [exact H|].
  apply IH, one_transmission_step, H.
Qed.

Lemma one_transmission_initial : Page.one_transmission Page.initial.
Proof. left. reflexivity. Qed.

(** [handleUpload] itself tests only [!file]: called while the flag is
    up it would send again.  It is the button that keeps it from being
    called. *)
Remark handleUpload_tests_only_the_file s f :
  FileUpload.file s = Some f ->
  FileUpload.handleUpload s FileUpload.Sent
  = (FileUpload.setIsUploading true s, [],
     Some {| FileUpload.method := "POST"; FileUpload.url := "/api/upload";
             FileUpload.formData := [("file", f)] |}).
Proof. unfold FileUpload.handleUpload. intros ->. reflexivity. Qed.

Lemma disabled_while_uploading s :
  FileUpload.isUploading s = true -> FileUpload.button_disabled s = true.
Proof. unfold FileUpload.button_disabled. intros ->. destruct (FileUpload.file s); reflexivity. Qed.

(** ** The flag that nothing lowers *)

Lemma stuck_step w e :
  Page.stuck w ->
  Page.stuck (Page.step w e) /\
  Page.upload_calls (Page.step w e) = Page.upload_calls w.
Proof.
  unfold Page.stuck. intros [U X].
  destruct (Page.chat_event e) eqn:C.
  { destruct (chat_event_frame w e C) as (-> & -> & ->). auto. }
  destruct e; try discriminate; cbn [Page.step].
  - unfold Page.handled. cbn. rewrite select_keeps_flag. auto.
  - auto.
  - auto.
  - unfold Page.handled. cbn. rewrite drop_is_select, select_keeps_flag. auto.
  - rewrite (disabled_while_uploading _ U). auto.
  - rewrite X. destruct i; cbn; auto.
  - rewrite X. destruct i; cbn; auto.
  - rewrite X. destruct i; cbn; auto.
Qed.

Lemma stuck_run es : forall w,
  Page.stuck w ->
  Page.stuck (Page.run w es) /\
  Page.upload_calls (Page.run w es) = Page.upload_calls w.
Proof.
  induction es as [|e es IH]; intros w H; cbn; [auto|].
  destruct (stuck_step w e H) as [S C].
  destruct (IH _ S) as [S' C']. split; [exact S' | rewrite <- C; exact C'].
Qed.

(** ** Progress *)

Lemma progress_of_percent ev :
  (0 < FileUpload.total ev)%N ->
  FileUpload.progress_of ev
  = JsNumber.Num (FileUpload.percent (FileUpload.loaded ev) (FileUpload.total ev)).
Proof.
  intros Ht. unfold FileUpload.progress_of.
  destruct (N.eqb_spec (FileUpload.total ev) 0); [lia | reflexivity].
Qed.

Lemma onprogress_percent t s ev :
  (0 < t)%N -> Spec.computable t ev ->
  FileUpload.uploadProgress (FileUpload.onprogress s ev)
  = JsNumber.Num (FileUpload.percent (FileUpload.loaded ev) t).
Proof.
  intros Ht (C & T & L). unfold FileUpload.onprogress. rewrite C. cbn.
  rewrite progress_of_percent by (rewrite T; assumption). now rewrite T.
Qed.

(** With no more sent than the total, the exact percentage needs no
    clamp. *)
Lemma progress_exact (l t : N) :
  (0 < t)%N -> (l <= t)%N ->
  Spec.progress l t = ((200 * Z.of_N l + Z.of_N t) / (2 * Z.of_N t))%Z.
Proof.
  intros Ht Hl. unfold Spec.progress. rewrite exact_round by lia.
  unfold Spec.clamp.
  assert (0 <= (200 * Z.of_N l + Z.of_N t) / (2 * Z.of_N t))%Z
    by (apply Z.div_pos; lia).
  assert ((200 * Z.of_N l + Z.of_N t) / (2 * Z.of_N t) < 101)%Z
    by (apply Z.div_lt_upper_bound; lia).
  lia.
Qed.

Lemma progress_trace t evs : forall w i,
  (0 < t)%N -> Forall (Spec.computable t) evs -> (i < List.length (Page.xhrs w))%nat ->
  map (fun w' => FileUpload.uploadProgress (Page.upload w'))
      (Page.trace w (map (Page.XhrProgress i) evs))
  = map (fun ev => JsNumber.Num (FileUpload.percent (FileUpload.loaded ev) t)) evs.
Proof.
  induction evs as [|ev evs IH]; intros w i Ht F Hi; [reflexivity|].
  inversion F as [|? ? Hev F']; subst.
  assert (S : Page.step w (Page.XhrProgress i ev)
              = Page.with_upload (FileUpload.onprogress (Page.upload w) ev) w).
  { cbn. destruct (nth_error (Page.xhrs w) i) eqn:N; [reflexivity|].
    apply nth_error_None in N. lia. }
  cbn [map Page.trace]. rewrite S. f_equal.
  - cbn. apply onprogress_percent; assumption.
  - apply IH; assumption.
Qed.

Lemma percent_sorted t evs :
  (0 < t)%N -> Sorted N.le (map FileUpload.loaded evs) ->
  Sorted Z.le (map (fun ev => FileUpload.percent (FileUpload.loaded ev) t) evs).
Proof.
  intros Ht. induction evs as [|ev evs IH]; intros S; [constructor|].
  cbn in S. apply Sorted_inv in S. destruct S as [S H].
  cbn. constructor; [apply IH, S|].
  destruct evs as [|ev' evs]; constructor.
  cbn in H. apply HdRel_inv in H. apply percent_mono; assumption.
Qed.

(** ** The items of the source list *)

Lemma zero_toString (x : Q) :
  JsNumber.is_zero x = true -> JsNumber.literal_toString x = "0".
Proof.
  unfold JsNumber.is_zero, JsNumber.literal_toString.
  destruct (JsNumber.denoted x) as [r|]; [|discriminate].
  intros H. apply Qeq_bool_iff in H. unfold JsNumber.toString.
  destruct r as [[|n|n] d]; [reflexivity | discriminate H | discriminate H].
Qed.

Lemma render_source_item (s : Chat.Source) :
  ChatInterface.render_source s
  = ((match Chat.title s with
      | Some (String c t) => String c t
      | _ => match Chat.url s with Some u => u | None => EmptyString end
      end) ++
     (match Chat.page s with
      | None => EmptyString
      | Some n => if JsNumber.is_zero n then "0"
                  else " (page " ++ JsNumber.literal_toString n ++ ")"
      end))%string.
Proof.
  unfold ChatInterface.render_source, ChatInterface.render_title,
    ChatInterface.render_page, JsString.or_else.
  f_equal.
  - destruct (Chat.title s) as [[|c t]|]; reflexivity.
  - destruct (Chat.page s) as [n|]; [|reflexivity].
    destruct (JsNumber.is_zero n) eqn:Z; [|reflexivity].
    apply zero_toString, Z.
Qed.

(** ** Sending a question *)

Lemma not_loading h : ChatInterface.isLoading_of (Home.chat_props h) = false.
Proof. reflexivity. Qed.

Lemma click_sends w :
  JsString.truthy (JsString.trim (Page.input w)) = true ->
  Page.step w Page.ClickSend = Page.send w.
Proof.
  intros H. cbn [Page.step]. unfold ChatInterface.button_disabled.
  rewrite H, not_loading. reflexivity.
Qed.

Lemma enter_sends w :
  Page.step w (Page.KeyPress "Enter" false) = Page.send w.
Proof. reflexivity. Qed.

Lemma send_with_document w :
  JsString.truthy (JsString.trim (Page.input w)) = true ->
  JsString.truthy_opt (Home.documentId (Page.home w)) = true ->
  Page.send w
  = let r := Home.query (Home.documentId (Page.home w)) (Page.input w) in
    Page.with_calls (Page.calls w ++ [Page.QueryCall r])
      (Page.with_submissions
         (Page.submissions w ++ [{| Page.request := r; Page.stage := Page.AwaitingResponse |}])
         (Page.with_home
            (Home.setMessages
               (Home.append (Chat.message Chat.user (Page.input w))) (Page.home w))
            w)).
Proof.
  intros I D. unfold Page.send, ChatInterface.handleSendMessage, Home.handleChatSubmit.
  rewrite I, not_loading, D. reflexivity.
Qed.

Lemma send_without_document w :
  JsString.truthy (JsString.trim (Page.input w)) = true ->
  JsString.truthy_opt (Home.documentId (Page.home w)) = false ->
  Page.send w
  = Page.with_input EmptyString
      (Page.with_home (Home.setMessages (Home.append Home.upload_first) (Page.home w)) w).
Proof.
  intros I D. unfold Page.send, ChatInterface.handleSendMessage, Home.handleChatSubmit.
  rewrite I, not_loading, D. reflexivity.
Qed.

Lemma nth_error_last {A} (l : list A) (x : A) :
  nth_error (l ++ [x]) (List.length l) = Some x.
Proof. rewrite nth_error_app2 by lia. now rewrite Nat.sub_diag. Qed.

Lemma replace_at_last {A} (l : list A) (x y : A) :
  Page.replace_at (List.length l) y (l ++ [x]) = l ++ [y].
Proof. induction l as [|a l IH]; cbn; [reflexivity | now rewrite IH]. Qed.

Lemma remove_at_last {A} (l : list A) (x : A) :
  Page.remove_at (List.length l) (l ++ [x]) = l.
Proof. induction l as [|a l IH]; cbn; [reflexivity | now rewrite IH]. Qed.

(* ------------------------------------------------------------------ *)
(** * The submission of questions *)

(** Claim C1, on the code as it is.  The page never passes [isLoading] to
    the chat component, so the flag that gates the send button and
    [handleSendMessage] is down in every state of the page, also while
    a submission is in flight.  With a document uploaded and a question
    typed, a first click sends the question; the button is still enabled
    and the field still holds the question, and a second click before
    the answer arrives appends a second user message and issues a second
    request: two submissions are in flight. *)
Theorem resubmission_is_not_gated :
  (forall h, ChatInterface.isLoading_of (Home.chat_props h) = false) /\
  List.length (Page.submissions Scenario.asked) = 1%nat /\
  ChatInterface.button_disabled (Home.chat_props (Page.home Scenario.asked))
    (Page.input Scenario.asked) = false /\
  let again := Page.step Scenario.asked Page.ClickSend in
  let q := Home.query (Some "doc-1") Scenario.revenue in
  Page.query_calls Scenario.asked = [q] /\
  Page.query_calls again = [q; q] /\
  Home.messages (Page.home again)
  = Home.messages (Page.home Scenario.asked)
    ++ [Chat.message Chat.user Scenario.revenue] /\
  List.length (Page.submissions again) = 2%nat.
Proof.
  split; [exact not_loading|]. vm_compute. repeat split; reflexivity.
Qed.

(** Claim C7, on the code as it is.  When the document identifier is set
    and the question is not blank, sending it issues exactly one
    request: a POST to [/api/query] with the JSON content type, whose
    body carries the identifier and the text of the question; the
    question is appended as a user message, and the submission is in
    flight.  When the response is a success and its body parses, no
    other request is made and one assistant message is appended, with
    the answer and the sources of the body.  Under that message the
    list of sources shows one item for each source: its title, or its
    URL when the title is absent or empty, followed by [ (page n)] when
    it has a page [n] other than 0.  A page that is 0 is not shown so:
    [source.page && ...] is then the number 0, which React shows as the
    bare [0] after the title.  For the answer that cites the first page
    of a document whose pages are counted from 0, the item reads
    [Income statement0]. *)
Theorem question_is_sent_once_and_answered (w : Page.State) (data : Api.QueryData) :
  JsString.truthy_opt (Home.documentId (Page.home w)) = true ->
  JsString.truthy (JsString.trim (Page.input w)) = true ->
  let i := List.length (Page.submissions w) in
  let asked := Page.step w Page.ClickSend in
  let answered :=
    Page.run asked [Page.FetchSettled i (Home.Responded true);
                    Page.JsonSettled i (Some data)] in
  let answer :=
    {| Chat.id := None; Chat.type := Chat.assistant;
       Chat.content := Api.answer data; Chat.sources := Api.sources data |} in
  let item (s : Chat.Source) :=
    ((match Chat.title s with
      | Some (String c t) => String c t
      | _ => match Chat.url s with Some u => u | None => EmptyString end
      end) ++
     (match Chat.page s with
      | None => EmptyString
      | Some n => if JsNumber.is_zero n then "0"
                  else " (page " ++ JsNumber.literal_toString n ++ ")"
      end))%string in
  Page.calls asked
  = Page.calls w
    ++ [Page.QueryCall
          {| Api.req_url := "/api/query";
             Api.method := "POST";
             Api.headers := [("Content-Type", "application/json")];
             Api.body := {| Api.body_documentId := Home.documentId (Page.home w);
                            Api.question := Page.input w |} |}] /\
  Page.submissions asked
  = Page.submissions w
    ++ [{| Page.request := Home.query (Home.documentId (Page.home w)) (Page.input w);
           Page.stage := Page.AwaitingResponse |}] /\
  Home.messages (Page.home asked)
  = Home.messages (Page.home w) ++ [Chat.message Chat.user (Page.input w)] /\
  Page.calls answered = Page.calls asked /\
  Home.messages (Page.home answered) = Home.messages (Page.home asked) ++ [answer] /\
  ChatInterface.render_sources answer
  = match Api.sources data with
    | None | Some [] => None
    | Some l => Some (map item l)
    end /\
  ChatInterface.render_sources
    {| Chat.id := None; Chat.type := Chat.assistant;
       Chat.content := Api.answer Scenario.reply;
       Chat.sources := Api.sources Scenario.reply |}
  = Some ["Income statement (page 12)"] /\
  ChatInterface.render_sources
    {| Chat.id := None; Chat.type := Chat.assistant;
       Chat.content := Api.answer Scenario.reply_from_cover;
       Chat.sources := Api.sources Scenario.reply_from_cover |}
  = Some ["Income statement0"].
Proof.
  intros D I i asked answered answer item.
  assert (A : asked = Page.send w) by (apply click_sends, I).
  rewrite (send_with_document w I D) in A. cbv zeta in A.
  split; [|split; [|split; [|split; [|split; [|split; [|split]]]]]].
  - rewrite A. reflexivity.
  - rewrite A. reflexivity.
  - rewrite A. reflexivity.
  - unfold answered. rewrite A. cbn. unfold i.
    rewrite nth_error_last. cbn. rewrite replace_at_last, nth_error_last. reflexivity.
  - unfold answered. rewrite A. cbn. unfold i.
    rewrite nth_error_last. cbn. rewrite replace_at_last, nth_error_last. reflexivity.
  - unfold ChatInterface.render_sources, answer. cbn [Chat.sources].
    destruct (Api.sources data) as [[|s l]|]; try reflexivity.
    f_equal. apply map_ext. intros x. apply render_source_item.
  - vm_compute. reflexivity.
  - vm_compute. reflexivity.
Qed.

Lemma question_is_sent_once_and_answered_witness :
  JsString.truthy_opt (Home.documentId (Page.home Scenario.asking)) = true /\
  JsString.truthy (JsString.trim (Page.input Scenario.asking)) = true /\
  Page.calls (Page.step Scenario.asking Page.ClickSend)
  = Page.calls Scenario.asking
    ++ [Page.QueryCall
          {| Api.req_url := "/api/query";
             Api.method := "POST";
             Api.headers := [("Content-Type", "application/json")];
             Api.body := {| Api.body_documentId := Some "doc-1";
                            Api.question := Scenario.revenue |} |}].
Proof.
  split; [reflexivity|]. split; [reflexivity|].
  exact (proj1 (question_is_sent_once_and_answered Scenario.asking Scenario.reply
                  eq_refl eq_refl)).
Defined.

(** Claim C8.  When no document identifier is set, [handleChatSubmit]
    returns at once for every question, having appended the one
    assistant message "Please upload a document first before asking
    questions."; sending a question that is not blank appends exactly
    that message, issues no network call and leaves nothing in
    flight. *)
Theorem question_without_document_stays_local (w : Page.State) :
  JsString.truthy_opt (Home.documentId (Page.home w)) = false ->
  let notice :=
    {| Chat.id := None; Chat.type := Chat.assistant;
       Chat.content := "Please upload a document first before asking questions.";
       Chat.sources := None |} in
  (forall message,
     Home.handleChatSubmit (Page.home w) message
     = Home.Resolved
         {| Home.documentId := Home.documentId (Page.home w);
            Home.documentName := Home.documentName (Page.home w);
            Home.messages := Home.messages (Page.home w) ++ [notice] |}) /\
  (JsString.truthy (JsString.trim (Page.input w)) = true ->
   let w' := Page.step w Page.ClickSend in
   Home.messages (Page.home w') = Home.messages (Page.home w) ++ [notice] /\
   Page.calls w' = Page.calls w /\
   Page.submissions w' = Page.submissions w /\
   Page.xhrs w' = Page.xhrs w).
Proof.
  intros D notice. split.
  - intros message. unfold Home.handleChatSubmit. now rewrite D.
  - intros I w'. unfold w'. rewrite (click_sends w I), (send_without_document w I D).
    cbn. repeat split.
Qed.

Lemma question_without_document_stays_local_witness :
  let w := Page.step Page.initial (Page.Change Scenario.revenue) in
  JsString.truthy_opt (Home.documentId (Page.home w)) = false /\
  JsString.truthy (JsString.trim (Page.input w)) = true /\
  Home.messages (Page.home (Page.step w Page.ClickSend))
  = [Chat.message Chat.assistant
       "Please upload a document first before asking questions."] /\
  Page.calls (Page.step w Page.ClickSend) = [].
Proof.
  cbv zeta. split; [reflexivity|]. split; [reflexivity|].
  pose proof (proj2 (question_without_document_stays_local
                       (Page.step Page.initial (Page.Change Scenario.revenue)) eq_refl)
                eq_refl) as H.
  cbv zeta in H. destruct H as (M & C & _). split; [exact M | exact C].
Defined.

(* ------------------------------------------------------------------ *)
(** * The conversation log *)

(** Claim C2, as stated, fails.  After an upload and a question the log
    holds two messages; the user then picks a file that is not a PDF,
    and the log is the single message of the upload error: the two
    messages are gone. *)
Lemma upload_error_drops_the_log :
  let w := Scenario.asked in
  let w' := Page.step w (Page.FileInputChange (Some [Scenario.photo])) in
  Home.messages (Page.home w)
  = [Chat.message Chat.assistant (Home.uploaded_text "Q3-Report.pdf");
     Chat.message Chat.user Scenario.revenue] /\
  Home.messages (Page.home w')
  = [Chat.message Chat.assistant "Upload error: Only PDF files are allowed"] /\
  ~ Spec.extends (Home.messages (Page.home w)) (Home.messages (Page.home w')).
Proof.
  repeat split; try reflexivity.
  intros [tail E]. vm_compute in E. discriminate E.
Qed.

(** Claim C2, amended.  Under every event of the question field and of
    the answer service the log is only appended to: every message
    already in it is still there, unedited and in the same position.
    Under an event of the upload the log is either left as it is, or
    one of the two upload callbacks has run and the log is exactly one
    assistant message. *)
Theorem log_grows_or_is_replaced_by_upload (w : Page.State) (e : Page.Event) :
  let h := Page.home w in
  let h' := Page.home (Page.step w e) in
  if Page.chat_event e
  then Spec.extends (Home.messages h) (Home.messages h')
  else h' = h \/
       exists c m, h' = Home.callback c h /\ Home.messages h' = [m] /\
                   Chat.type m = Chat.assistant.
Proof.
  cbv zeta. destruct (Page.chat_event e) eqn:C.
  - apply chat_event_extends, C.
  - destruct (upload_event_callback w e C) as [E | [c E]]; [left; exact E|].
    right. exists c. rewrite E. destruct c; cbn; eauto.
Qed.



(* ------------------------------------------------------------------ *)
(** * The selection of a file *)

(** Claim C6, as stated, fails.  The report is the candidate; the user
    then picks a file that is not a PDF, which is refused, and the
    report is still the candidate: the refusal has not cleared it. *)
Lemma rejection_keeps_prior_candidate :
  let w := Page.step Page.initial (Page.FileInputChange (Some [Scenario.report])) in
  let w' := Page.step w (Page.FileInputChange (Some [Scenario.photo])) in
  FileUpload.file (Page.upload w) = Some Scenario.report /\
  Spec.selectFile_accepts (FileUpload.maxFileSize_of Home.upload_props)
    Scenario.photo = false /\
  FileUpload.file (Page.upload w') = Some Scenario.report /\
  FileUpload.file (Page.upload w') <> None.
Proof. repeat split; try reflexivity. discriminate. Qed.

(** Claim C6, amended.  A file whose media type is not exactly the PDF
    type, or whose size exceeds the maximum, is refused: the handler
    calls the error callback once with the text of the refusal and
    leaves the state of the component as it is, the candidate included
    (the drop handler lowers the drag indicator, as it does for every
    drop).  On the page, the flag, the progress and the candidate are
    unchanged, no transmission is started and no network call is made. *)
Theorem rejected_file_leaves_upload_state :
  (forall p f rest s,
     Spec.refused p f ->
     FileUpload.handleFileSelect p s (Some (f :: rest))
     = (s, [FileUpload.onUploadError (Spec.refusal p f)]) /\
     FileUpload.handleDrop p s (Some (f :: rest))
     = (FileUpload.setDragActive false s,
        [FileUpload.onUploadError (Spec.refusal p f)])) /\
  (forall f rest w,
     Spec.refused Home.upload_props f ->
     let picked := Page.step w (Page.FileInputChange (Some (f :: rest))) in
     let dropped := Page.step w (Page.Drop (Some (f :: rest))) in
     Page.upload picked = Page.upload w /\
     Spec.upload_state (Page.upload dropped) = Spec.upload_state (Page.upload w) /\
     Page.xhrs picked = Page.xhrs w /\ Page.xhrs dropped = Page.xhrs w /\
     Page.calls picked = Page.calls w /\ Page.calls dropped = Page.calls w).
Proof.
  split.
  - intros p f rest s R. split.
    + apply select_refused, R.
    + rewrite drop_is_select. apply select_refused, R.
  - intros f rest w R. cbv zeta. cbn [Page.step]. rewrite drop_is_select.
    rewrite !select_refused by exact R. cbn. repeat split.
Qed.

Lemma rejected_file_leaves_upload_state_witness :
  Spec.refused Home.upload_props Scenario.scan /\
  Page.upload (Page.step Scenario.uploading (Page.FileInputChange (Some [Scenario.scan])))
  = Page.upload Scenario.uploading.
Proof.
  assert (R : Spec.refused Home.upload_props Scenario.scan) by (right; reflexivity).
  split; [exact R|].
  exact (proj1 (proj2 rejected_file_leaves_upload_state
                  Scenario.scan [] Scenario.uploading R)).
Defined.

(** Claim C9.  For every list of files, the drop handler reports the
    same errors as the picker handler and leaves the same candidate,
    flag and progress; its result is that of the picker handler with
    the drag indicator lowered.  Both accept the first file exactly when
    its media type is the PDF type and its size is at most the maximum,
    and both do nothing else when there is no file. *)
Theorem drop_validates_as_picker
    (p : FileUpload.FileUploadProps) (s : FileUpload.State)
    (files : option (list FileUpload.File)) :
  let picked := FileUpload.handleFileSelect p s files in
  let dropped := FileUpload.handleDrop p s files in
  snd dropped = snd picked /\
  Spec.upload_state (fst dropped) = Spec.upload_state (fst picked) /\
  dropped = (FileUpload.setDragActive false (fst picked), snd picked) /\
  match files with
  | Some (f :: _) =>
      Spec.selectFile_accepts (FileUpload.maxFileSize_of p) f
      = match snd picked with [] => true | _ => false end
  | _ => picked = (s, [])
  end.
Proof.
  cbv zeta.
  unfold FileUpload.handleDrop, FileUpload.handleFileSelect, Spec.selectFile_accepts.
  destruct files as [[|f rest]|]; cbn; auto.
  destruct (FileUpload.type f =? "application/pdf"); cbn; auto.
  rewrite N.leb_antisym.
  destruct (N.ltb _ _); cbn; auto.
Qed.

(* ------------------------------------------------------------------ *)
(** * The transmission *)

(** Claim C3, on the code as it is.  The flag is up while the report is
    transmitted.  The server answers 200 with a body that is not JSON:
    [JSON.parse] throws inside [xhr.onload], the statement that lowers
    the flag is not reached, and the transmission is over.  From then
    on, whatever the user and the network do, the flag stays up, the
    upload button stays disabled and no upload is started.  The other
    ways a transmission fails do lower the flag: a network error, a
    statement of the [try] block that throws, a status that is not 200;
    so does a body that parses. *)
Theorem unparsable_body_leaves_flag_up :
  FileUpload.isUploading (Page.upload Scenario.uploading) = true /\
  Page.stuck Scenario.garbled /\
  (forall es,
     let w := Page.run Scenario.garbled es in
     FileUpload.isUploading (Page.upload w) = true /\
     FileUpload.button_disabled (Page.upload w) = true /\
     Page.upload_calls w = Page.upload_calls Scenario.garbled) /\
  (forall s, FileUpload.isUploading (fst (FileUpload.onerror s)) = false) /\
  (forall s f e,
     FileUpload.isUploading
       (fst (fst (FileUpload.handleUpload (FileUpload.setFile (Some f) s)
                    (FileUpload.Threw e)))) = false) /\
  (forall s ev,
     if (FileUpload.status ev =? 200)%Z
     then match FileUpload.response ev with
          | None => FileUpload.onload s ev = (s, [])
          | Some _ => FileUpload.isUploading (fst (FileUpload.onload s ev)) = false
          end
     else FileUpload.isUploading (fst (FileUpload.onload s ev)) = false).
Proof.
  assert (S : Page.stuck Scenario.garbled) by (split; reflexivity).
  split; [reflexivity|]. split; [exact S|]. split; [|split; [|split]].
  - intros es w. destruct (stuck_run es _ S) as [[U X] C]. fold w in U, X, C.
    repeat split; [exact U | apply disabled_while_uploading, U | exact C].
  - reflexivity.
  - reflexivity.
  - intros s ev. unfold FileUpload.onload.
    destruct (FileUpload.status ev =? 200)%Z; [|reflexivity].
    destruct (FileUpload.response ev); reflexivity.
Qed.

(** Claim C4, as stated, fails.  The progress is what
    [Math.round((event.loaded / event.total) * 100)] gives in the
    arithmetic of JavaScript, and nothing clamps it or keeps it from
    decreasing.  When 602945 of 1048600 bytes are sent, 57.5 per cent,
    the quotient and the product round to 57.49999999999999 and the
    progress is 57, where round(bytesSent / bytesTotal * 100) is 58.  A
    notification of 300 bytes of 200 sets the progress to 150, and one
    of 50 bytes after one of 100 takes the progress from 50 to 25. *)
Lemma progress_is_not_the_clamped_percentage :
  let notified (l t : N) := Page.XhrProgress 0 {| FileUpload.lengthComputable := true;
                                            FileUpload.loaded := l;
                                            FileUpload.total := t |} in
  let shown es := map (fun w => FileUpload.uploadProgress (Page.upload w))
                      (Page.trace Scenario.uploading es) in
  (shown [notified 602945%N 1048600%N] = [JsNumber.Num 57] /\
   Spec.progress 602945 1048600 = 58%Z) /\
  (shown [notified 300%N 200%N] = [JsNumber.Num 150] /\
   Spec.progress 300 200 = 100%Z) /\
  shown [notified 100%N 200%N; notified 50%N 200%N] = [JsNumber.Num 50; JsNumber.Num 25].
Proof. vm_compute. repeat split; reflexivity. Qed.

(** Claim C4, amended.  Take progress notifications of a transmission of
    [bytesTotal] bytes, a positive number below 2^44: the total is known
    and no more than the total has been sent.  The progress that each
    notification sets, whatever the state, lies in [0,100] and is
    round(bytesSent / bytesTotal * 100), except that it may be one less
    when that percentage is exactly half-way between two integers.
    Along the notifications the page shows these values in turn, and
    they do not decrease when the bytes sent do not decrease.  A
    notification whose total is not known leaves the state as it is.
    The code has no clamp and no guard against a decrease. *)
Theorem progress_is_rounded_percentage
    (bytesTotal : N) (evs : list FileUpload.ProgressEvent) :
  (0 < bytesTotal < 2 ^ 44)%N ->
  Forall (Spec.computable bytesTotal) evs ->
  (forall s ev, In ev evs ->
     exists p,
       FileUpload.uploadProgress (FileUpload.onprogress s ev) = JsNumber.Num p /\
       (0 <= p <= 100)%Z /\
       (p = Spec.progress (FileUpload.loaded ev) bytesTotal \/
        p = (Spec.progress (FileUpload.loaded ev) bytesTotal - 1)%Z /\
        ((200 * Z.of_N (FileUpload.loaded ev) + Z.of_N bytesTotal)
           mod (2 * Z.of_N bytesTotal) = 0)%Z)) /\
  (forall w i, (i < List.length (Page.xhrs w))%nat ->
     map (fun w' => FileUpload.uploadProgress (Page.upload w'))
         (Page.trace w (map (Page.XhrProgress i) evs))
     = map (fun ev => JsNumber.Num (FileUpload.percent (FileUpload.loaded ev) bytesTotal))
           evs) /\
  (Sorted N.le (map FileUpload.loaded evs) ->
   Sorted Z.le
     (map (fun ev => FileUpload.percent (FileUpload.loaded ev) bytesTotal) evs)) /\
  (forall s ev, FileUpload.lengthComputable ev = false -> FileUpload.onprogress s ev = s).
Proof.
  intros [Ht0 Ht1] F. split; [|split; [|split]].
  - intros s ev I. rewrite Forall_forall in F. pose proof (F ev I) as C.
    pose proof C as (_ & _ & L).
    exists (FileUpload.percent (FileUpload.loaded ev) bytesTotal).
    split; [apply onprogress_percent; assumption|].
    split; [apply percent_range; assumption|].
    rewrite progress_exact by assumption.
    destruct (percent_near_exact (FileUpload.loaded ev) bytesTotal (conj Ht0 Ht1) L)
      as [[Lo Hi] E]. cbv zeta in Lo, Hi, E.
    destruct (Z.eq_dec ((200 * Z.of_N (FileUpload.loaded ev) + Z.of_N bytesTotal)
                          mod (2 * Z.of_N bytesTotal)) 0) as [M | M].
    + destruct (Z.eq_dec (FileUpload.percent (FileUpload.loaded ev) bytesTotal)
                  ((200 * Z.of_N (FileUpload.loaded ev) + Z.of_N bytesTotal)
                     / (2 * Z.of_N bytesTotal))) as [P | P]; [left; exact P|].
      right. split; [lia | exact M].
    + left. apply E, M.
  - intros w i Hi. apply progress_trace; assumption.
  - apply percent_sorted, Ht0.
  - intros s ev C. unfold FileUpload.onprogress. now rewrite C.
Qed.

Lemma progress_is_rounded_percentage_witness :
  (0 < 1048576 < 2 ^ 44)%N /\
  Forall (Spec.computable 1048576) [Scenario.half_way; Scenario.all_sent] /\
  Sorted N.le (map FileUpload.loaded [Scenario.half_way; Scenario.all_sent]) /\
  map (fun w' => FileUpload.uploadProgress (Page.upload w'))
      (Page.trace Scenario.uploading
         (map (Page.XhrProgress 0) [Scenario.half_way; Scenario.all_sent]))
  = map (fun ev => JsNumber.Num (FileUpload.percent (FileUpload.loaded ev) 1048576))
        [Scenario.half_way; Scenario.all_sent] /\
  Sorted Z.le
    (map (fun ev => FileUpload.percent (FileUpload.loaded ev) 1048576)
         [Scenario.half_way; Scenario.all_sent]).
Proof.
  assert (H1 : (0 < 1048576 < 2 ^ 44)%N) by (split; reflexivity).
  assert (H2 : Forall (Spec.computable 1048576) [Scenario.half_way; Scenario.all_sent]).
  { repeat constructor; discriminate. }
  assert (H3 : Sorted N.le (map FileUpload.loaded [Scenario.half_way; Scenario.all_sent])).
  { repeat constructor; discriminate. }
  split; [exact H1|]. split; [exact H2|]. split; [exact H3|].
  pose proof (progress_is_rounded_percentage 1048576
                [Scenario.half_way; Scenario.all_sent] H1 H2) as (_ & T & S & _).
  split; [|exact (S H3)].
  apply (T Scenario.uploading 0%nat). vm_compute. lia.
Defined.

(** Claim C5.  From the initial page, after every sequence of events, at
    most one upload transmission is in flight.  While the flag is up the
    upload button is disabled: a click on it changes nothing in the
    state of the page, opens no transmission and makes no network
    call. *)
Theorem one_upload_in_flight :
  (forall es, (List.length (Page.xhrs (Page.run Page.initial es)) <= 1)%nat) /\
  (forall w o,
     FileUpload.isUploading (Page.upload w) = true ->
     Page.step w (Page.ClickUpload o) = w).
Proof.
  split.
  - intros es.
    destruct (one_transmission_run es _ one_transmission_initial) as [-> | [_ ->]];
      cbn; lia.
  - intros w o U. cbn [Page.step]. now rewrite (disabled_while_uploading _ U).
Qed.

Lemma one_upload_in_flight_witness :
  FileUpload.isUploading (Page.upload Scenario.uploading) = true /\
  Page.step Scenario.uploading (Page.ClickUpload FileUpload.Sent) = Scenario.uploading.
Proof.
  split; [reflexivity|].
  apply (proj2 one_upload_in_flight Scenario.uploading FileUpload.Sent). reflexivity.
Defined.

(* ------------------------------------------------------------------ *)
(** * Further properties of the handlers *)

(** ** Blank questions *)

Lemma trimStart_all_space s : History.all_space s = true -> JsString.trimStart s = EmptyString.
Proof.
  induction s as [|c r IH]; cbn; [reflexivity|].
  intros H. apply andb_prop in H. destruct H as [C R]. rewrite C. apply IH, R.
Qed.

Lemma trimEnd_keeps s c :
  JsString.is_space c = false -> JsString.truthy (JsString.trimEnd (String c s)) = true.
Proof. intros H. cbn. destruct (JsString.trimEnd s); [rewrite H|]; reflexivity. Qed.

Lemma trim_blank s :
  JsString.truthy (JsString.trim s) = negb (History.all_space s).
Proof.
  unfold JsString.trim. induction s as [|c r IH]; [reflexivity|].
  cbn [JsString.trimStart History.all_space].
  destruct (JsString.is_space c) eqn:C; [exact IH|].
  now rewrite trimEnd_keeps.
Qed.

Lemma is_space_codes c :
  In (N_of_ascii c) [9; 10; 11; 12; 13; 32; 160]%N -> JsString.is_space c = true.
Proof.
  unfold JsString.is_space.
  intros [H | [H | [H | [H | [H | [H | [H | []]]]]]]]; rewrite <- H; reflexivity.
Qed.

Lemma all_space_codes s :
  (forall c, In c (list_ascii_of_string s) ->
             In (N_of_ascii c) [9; 10; 11; 12; 13; 32; 160]%N) ->
  History.all_space s = true.
Proof.
  induction s as [|c r IH]; cbn; [reflexivity|]. intros H.
  rewrite (is_space_codes c) by (apply H; left; reflexivity).
  apply IH. intros c' I. apply H. right. exact I.
Qed.

Lemma send_blank w :
  JsString.truthy (JsString.trim (Page.input w)) = false -> Page.send w = w.
Proof.
  intros H. unfold Page.send, ChatInterface.handleSendMessage. now rewrite H.
Qed.

(** Property X1.  A question that holds nothing but white space (TAB,
    LF, VT, FF, CR, SP and the no-break space, the white space and line
    terminators of [trim] among the code units of the model) is not
    sent: the click on the send button and the Enter key leave the
    whole page as it is, so no message is appended and no call made. *)
Theorem blank_question_is_not_sent (w : Page.State) :
  (forall c, In c (list_ascii_of_string (Page.input w)) ->
             In (N_of_ascii c) [9; 10; 11; 12; 13; 32; 160]%N) ->
  Page.step w Page.ClickSend = w /\
  Page.step w (Page.KeyPress "Enter" false) = w.
Proof.
  intros H. apply all_space_codes in H.
  assert (B : JsString.truthy (JsString.trim (Page.input w)) = false)
    by (rewrite trim_blank, H; reflexivity).
  split.
  - cbn [Page.step]. unfold ChatInterface.button_disabled. now rewrite B.
  - rewrite enter_sends. apply send_blank, B.
Qed.

Lemma blank_question_is_not_sent_witness :
  let w := Page.step Scenario.uploaded
             (Page.Change (String (ascii_of_N 160) "  ")) in
  (forall c, In c (list_ascii_of_string (Page.input w)) ->
             In (N_of_ascii c) [9; 10; 11; 12; 13; 32; 160]%N) /\
  Page.step w Page.ClickSend = w.
Proof.
  cbv zeta.
  assert (H : forall c,
             In c (list_ascii_of_string
                     (Page.input (Page.step Scenario.uploaded
                                    (Page.Change (String (ascii_of_N 160) "  "))))) ->
             In (N_of_ascii c) [9; 10; 11; 12; 13; 32; 160]%N).
  { intros c [<- | [<- | [<- | []]]]; vm_compute; auto 8. }
  split; [exact H|].
  exact (proj1 (blank_question_is_not_sent
                  (Page.step Scenario.uploaded
                     (Page.Change (String (ascii_of_N 160) "  "))) H)).
Defined.

(** Property X2.  Of the keys, only Enter without Shift sends, and it
    does what a click on the send button does; every other key, and
    Enter with Shift, leaves the page as it is. *)
Theorem only_plain_enter_sends (w : Page.State) (key : string) (shiftKey : bool) :
  Page.step w (Page.KeyPress key shiftKey)
  = if (key =? "Enter") && negb shiftKey then Page.step w Page.ClickSend else w.
Proof.
  cbn [Page.step]. unfold ChatInterface.input_disabled. rewrite not_loading.
  unfold ChatInterface.handleKeyPress.
  destruct ((key =? "Enter") && negb shiftKey); [|reflexivity].
  unfold ChatInterface.button_disabled. rewrite not_loading, orb_false_r.
  destruct (JsString.truthy (JsString.trim (Page.input w))) eqn:B; cbn [negb].
  - reflexivity.
  - apply send_blank, B.
Qed.

(** ** Failures of the answer service *)





(** Property X4.  Sending a question leaves it in the question field
    while the answer is awaited.  When the submission returns, with an
    answer or with a failure, the field is emptied, and what the user
    has typed in the meantime is lost with it. *)
Theorem question_stays_until_the_answer (w : Page.State) (typed : string)
    (data : option Api.QueryData) :
  JsString.truthy_opt (Home.documentId (Page.home w)) = true ->
  JsString.truthy (JsString.trim (Page.input w)) = true ->
  let i := List.length (Page.submissions w) in
  let asked := Page.step w Page.ClickSend in
  Page.input asked = Page.input w /\
  Page.input (Page.step asked (Page.Change typed)) = typed /\
  Page.input
    (Page.run asked [Page.Change typed;
                     Page.FetchSettled i (Home.Responded true);
                     Page.JsonSettled i data]) = EmptyString /\
  Page.input (Page.run asked [Page.Change typed; Page.FetchSettled i Home.Rejected])
  = EmptyString.
Proof.
  intros D I i asked.
  assert (A : asked = Page.send w) by (apply click_sends, I).
  rewrite (send_with_document w I D) in A. cbv zeta in A.
  rewrite A. unfold i. cbn. rewrite !nth_error_last. cbn.
  rewrite replace_at_last, nth_error_last. repeat split.
Qed.

Lemma question_stays_until_the_answer_witness :
  JsString.truthy_opt (Home.documentId (Page.home Scenario.asking)) = true /\
  JsString.truthy (JsString.trim (Page.input Scenario.asking)) = true /\
  Page.input (Page.step Scenario.asking Page.ClickSend) = Scenario.revenue.
Proof.
  split; [reflexivity|]. split; [reflexivity|].
  exact (proj1 (question_stays_until_the_answer Scenario.asking EmptyString None
                  eq_refl eq_refl)).
Defined.

(** ** The end of a transmission *)





(** ** The selection *)

(** Property X7.  A first file of the PDF type whose size is at most
    the maximum, the maximum included, becomes the candidate and the
    progress is set to 0, by the picker and by the drop alike; no
    callback runs, the flag is untouched and the other files of the
    list are ignored. *)
Theorem pdf_within_limit_becomes_candidate
    (p : FileUpload.FileUploadProps) (s : FileUpload.State)
    (f : FileUpload.File) (rest : list FileUpload.File) :
  FileUpload.type f = "application/pdf" ->
  (FileUpload.size f <= FileUpload.maxFileSize_of p)%N ->
  FileUpload.handleFileSelect p s (Some (f :: rest))
  = ({| FileUpload.file := Some f;
        FileUpload.isUploading := FileUpload.isUploading s;
        FileUpload.uploadProgress := JsNumber.Num 0;
        FileUpload.dragActive := FileUpload.dragActive s |}, []) /\
  FileUpload.handleDrop p s (Some (f :: rest))
  = ({| FileUpload.file := Some f;
        FileUpload.isUploading := FileUpload.isUploading s;
        FileUpload.uploadProgress := JsNumber.Num 0;
        FileUpload.dragActive := false |}, []).
Proof.
  intros T Z. unfold FileUpload.handleDrop, FileUpload.handleFileSelect.
  rewrite T, String.eqb_refl. cbn [negb].
  destruct (N.ltb_spec (FileUpload.maxFileSize_of p) (FileUpload.size f)); [lia|].
  split; reflexivity.
Qed.

Lemma pdf_within_limit_becomes_candidate_witness :
  let exact := {| FileUpload.name := "limit.pdf"; FileUpload.type := "application/pdf";
                  FileUpload.size := 5 * 1024 * 1024 |} in
  FileUpload.type exact = "application/pdf" /\
  (FileUpload.size exact <= FileUpload.maxFileSize_of Home.upload_props)%N /\
  FileUpload.file
    (fst (FileUpload.handleFileSelect Home.upload_props FileUpload.initial (Some [exact])))
  = Some exact.
Proof.
  cbv zeta. split; [reflexivity|]. split; [discriminate|].
  rewrite (proj1 (pdf_within_limit_becomes_candidate Home.upload_props FileUpload.initial
                    {| FileUpload.name := "limit.pdf"; FileUpload.type := "application/pdf";
                       FileUpload.size := 5 * 1024 * 1024 |} [] eq_refl
                    ltac:(discriminate))).
  reflexivity.
Defined.

(** ** The network calls of one event *)

Lemma truthy_opt_some d :
  JsString.truthy_opt d = true -> exists id, d = Some id /\ id <> EmptyString.
Proof.
  destruct d as [[|c s]|]; cbn; try discriminate. intros _. eexists. split; [reflexivity|discriminate].
Qed.

Lemma send_issues w :
  exists l, Page.calls (Page.send w) = Page.calls w ++ l /\ History.Issued w l.
Proof.
  unfold Page.send, ChatInterface.handleSendMessage.
  destruct (JsString.truthy (JsString.trim (Page.input w))) eqn:I; cbn [negb orb].
  2:{ exists []. split; [symmetry; apply app_nil_r | constructor]. }
  rewrite not_loading. unfold Home.handleChatSubmit.
  destruct (JsString.truthy_opt (Home.documentId (Page.home w))) eqn:D; cbn [negb].
  - destruct (truthy_opt_some _ D) as (id & E & N).
    eexists. split; [reflexivity|]. rewrite E. now constructor.
  - exists []. split; [symmetry; apply app_nil_r | constructor].
Qed.

Lemma step_issues w e :
  exists l, Page.calls (Page.step w e) = Page.calls w ++ l /\ History.Issued w l.
Proof.
  assert (Same : forall w', Page.calls w' = Page.calls w ->
            exists l, Page.calls w' = Page.calls w ++ l /\ History.Issued w l).
  { intros w' E. exists []. rewrite E. split; [symmetry; apply app_nil_r | constructor]. }
  destruct e; cbn [Page.step].
  - destruct (ChatInterface.input_disabled _); apply Same; reflexivity.
  - destruct (ChatInterface.button_disabled _ _); [apply Same; reflexivity | apply send_issues].
  - destruct (ChatInterface.input_disabled _); [apply Same; reflexivity|].
    destruct (ChatInterface.handleKeyPress _ _); [apply send_issues | apply Same; reflexivity].
  - apply Same. destruct (nth_error _ _) as [[r [|]]|]; try reflexivity.
    destruct (Home.handleChatSubmit_fetched _ _); reflexivity.
  - apply Same. destruct (nth_error _ _) as [[r [|]]|]; reflexivity.
  - apply Same. reflexivity.
  - apply Same. reflexivity.
  - apply Same. reflexivity.
  - apply Same. reflexivity.
  - unfold FileUpload.button_disabled, FileUpload.handleUpload.
    destruct (FileUpload.file (Page.upload w)) eqn:F; [|apply Same; reflexivity].
    destruct (FileUpload.isUploading (Page.upload w)) eqn:U; [apply Same; reflexivity|].
    destruct o; [|apply Same; reflexivity].
    eexists. split; [reflexivity|]. now constructor.
  - apply Same. destruct (nth_error _ _); reflexivity.
  - apply Same. destruct (nth_error _ _); reflexivity.
  - apply Same. destruct (nth_error _ _); reflexivity.
Qed.

(** ** The candidate *)

Lemma select_candidate p s files :
  FileUpload.file (fst (FileUpload.handleFileSelect p s files)) = FileUpload.file s \/
  exists f, FileUpload.file (fst (FileUpload.handleFileSelect p s files)) = Some f /\
            Spec.selectFile_accepts (FileUpload.maxFileSize_of p) f = true.
Proof.
  unfold FileUpload.handleFileSelect, Spec.selectFile_accepts.
  destruct files as [[|f rest]|]; cbn; auto.
  destruct (FileUpload.type f =? "application/pdf") eqn:T; cbn; auto.
  destruct (N.ltb_spec (FileUpload.maxFileSize_of p) (FileUpload.size f)); cbn; auto.
  right. exists f. split; [reflexivity|]. rewrite T. apply N.leb_le. assumption.
Qed.

Lemma step_candidate w e :
  FileUpload.file (Page.upload (Page.step w e)) = FileUpload.file (Page.upload w) \/
  exists f, FileUpload.file (Page.upload (Page.step w e)) = Some f /\
            Spec.selectFile_accepts (FileUpload.maxFileSize_of Home.upload_props) f = true.
Proof.
  destruct (Page.chat_event e) eqn:C.
  { left. destruct (chat_event_frame w e C) as (-> & _). reflexivity. }
  destruct e; try discriminate; cbn [Page.step].
  - apply select_candidate.
  - auto.
  - auto.
  - rewrite drop_is_select. apply (select_candidate _ (FileUpload.handleDragLeave _)).
  - left. destruct (FileUpload.button_disabled _); [reflexivity|].
    unfold FileUpload.handleUpload. destruct (FileUpload.file (Page.upload w)) eqn:F; cbn; auto.
    destruct o; cbn; auto.
  - left. destruct (nth_error _ _); [|reflexivity]. cbn.
    unfold FileUpload.onprogress. destruct (FileUpload.lengthComputable ev); reflexivity.
  - left. destruct (nth_error _ _); [|reflexivity]. cbn. unfold FileUpload.onload.
    destruct (Z.eqb _ _); [destruct (FileUpload.response ev)|]; reflexivity.
  - left. destruct (nth_error _ _); reflexivity.
Qed.

Lemma candidate_accepted_step w e :
  History.candidate_accepted w -> History.candidate_accepted (Page.step w e).
Proof.
  unfold History.candidate_accepted. intros H.
  destruct (step_candidate w e) as [-> | (f & -> & A)]; assumption.
Qed.

Lemma calls_ok_step w e :
  History.candidate_accepted w -> Forall History.call_ok (Page.calls w) ->
  Forall History.call_ok (Page.calls (Page.step w e)).
Proof.
  intros A F. destruct (step_issues w e) as (l & -> & I).
  apply Forall_app. split; [exact F|].
  destruct I as [| id message D N _ T | f Ff _]; repeat constructor.
  - exists id, message. auto.
  - exists f. split; [reflexivity|].
    unfold History.candidate_accepted in A. now rewrite Ff in A.
Qed.

Lemma calls_ok_run es : forall w,
  History.candidate_accepted w -> Forall History.call_ok (Page.calls w) ->
  History.candidate_accepted (Page.run w es) /\
  Forall History.call_ok (Page.calls (Page.run w es)).
Proof.
  induction es as [|e es IH]; intros w A F; cbn; [auto|].
  apply IH; [apply candidate_accepted_step, A | apply calls_ok_step; assumption].
Qed.

Lemma Forall_flat_map {A B} (P : A -> Prop) (Q : B -> Prop) (f : A -> list B) l :
  (forall a, P a -> Forall Q (f a)) -> Forall P l -> Forall Q (flat_map f l).
Proof.
  intros H F. induction F as [|a l Pa _ IH]; cbn; [constructor|].
  apply Forall_app. auto.
Qed.

(** Property X8.  From the initial page, after every sequence of
    events, every upload that was ever made is a POST to /api/upload of
    one form field [file] that holds a PDF of at most 5 MiB, and the
    candidate, if any, is such a file. *)
Theorem only_accepted_files_are_transmitted (es : list Page.Event) :
  Forall History.upload_of_accepted (Page.upload_calls (Page.run Page.initial es)) /\
  History.candidate_accepted (Page.run Page.initial es).
Proof.
  destruct (calls_ok_run es Page.initial I (Forall_nil _)) as [A F].
  split; [|exact A]. unfold Page.upload_calls.
  apply (Forall_flat_map History.call_ok); [|exact F].
  intros [t | r] H; cbn; [constructor; [exact H | constructor] | constructor].
Qed.

(** Property X9.  From the initial page, after every sequence of
    events, every request that was ever made to the answer service
    carries an identifier that is not empty and a question that is not
    blank. *)
Theorem queries_name_a_document (es : list Page.Event) :
  Forall History.query_of_document (Page.query_calls (Page.run Page.initial es)).
Proof.
  destruct (calls_ok_run es Page.initial I (Forall_nil _)) as [_ F].
  unfold Page.query_calls.
  apply (Forall_flat_map History.call_ok); [|exact F].
  intros [t | r] H; cbn; [constructor | constructor; [exact H | constructor]].
Qed.

(** Property X10.  An event appends at most one call to those made so
    far and removes none: a query for the document and with the
    question that the page holds, or an upload of the candidate while
    the flag is down. *)
Theorem an_event_issues_at_most_one_call (w : Page.State) (e : Page.Event) :
  exists l,
    Page.calls (Page.step w e) = Page.calls w ++ l /\
    History.Issued w l /\ (List.length l <= 1)%nat.
Proof.
  destruct (step_issues w e) as (l & E & I). exists l.
  split; [exact E|]. split; [exact I|]. destruct I; cbn; lia.
Qed.

(** Property X11.  Nothing clears the candidate: once a file is
    selected, the page has a candidate after every sequence of events. *)
Theorem candidate_is_never_cleared (w : Page.State) (es : list Page.Event) :
  FileUpload.file (Page.upload w) <> None ->
  FileUpload.file (Page.upload (Page.run w es)) <> None.
Proof.
  revert w. induction es as [|e es IH]; intros w H; cbn; [exact H|].
  apply IH. destruct (step_candidate w e) as [-> | (f & -> & _)]; [exact H | discriminate].
Qed.

Lemma candidate_is_never_cleared_witness :
  FileUpload.file (Page.upload Scenario.uploading) <> None /\
  FileUpload.file (Page.upload Scenario.garbled) <> None.
Proof.
  assert (H : FileUpload.file (Page.upload Scenario.uploading) <> None) by discriminate.
  split; [exact H|].
  exact (candidate_is_never_cleared Scenario.uploading
           [Page.XhrLoad 0 {| FileUpload.status := 200; FileUpload.statusText := "OK";
                              FileUpload.response := None |}] H).
Defined.

(** ** The drag indicator *)

Lemma select_ignores_drag p s b files :
  FileUpload.handleFileSelect p (FileUpload.setDragActive b s) files
  = (FileUpload.setDragActive b (fst (FileUpload.handleFileSelect p s files)),
     snd (FileUpload.handleFileSelect p s files)).
Proof.
  unfold FileUpload.handleFileSelect. destruct files as [[|f rest]|]; try reflexivity.
  destruct (negb _); [reflexivity|]. destruct (N.ltb _ _); reflexivity.
Qed.

(** Property X12.  The drag indicator is raised by a drag over the
    area, lowered when the drag leaves and on a drop, and left alone by
    every other event; and it decides nothing: from two pages that
    differ in the indicator only, every event leads to two pages that
    differ in the indicator only. *)
Theorem drag_indicator_changes_nothing_else (w : Page.State) (b : bool) (e : Page.Event) :
  let dragged := Page.with_upload (FileUpload.setDragActive b (Page.upload w)) w in
  History.undrag (Page.step dragged e) = History.undrag (Page.step w e) /\
  FileUpload.dragActive (Page.upload (Page.step w e))
  = match e with
    | Page.DragOver => true
    | Page.DragLeave | Page.Drop _ => false
    | _ => FileUpload.dragActive (Page.upload w)
    end.
Proof.
  cbv zeta. unfold History.undrag. destruct e; cbn [Page.step].
  - destruct (ChatInterface.input_disabled _); split; reflexivity.
  - destruct (ChatInterface.button_disabled _ _); [split; reflexivity|].
    unfold Page.send. cbn.
    destruct (ChatInterface.handleSendMessage _ _); [split; reflexivity|].
    destruct (Home.handleChatSubmit _ _); split; reflexivity.
  - destruct (ChatInterface.input_disabled _); [split; reflexivity|].
    destruct (ChatInterface.handleKeyPress _ _); [|split; reflexivity].
    unfold Page.send. cbn.
    destruct (ChatInterface.handleSendMessage _ _); [split; reflexivity|].
    destruct (Home.handleChatSubmit _ _); split; reflexivity.
  - cbn. destruct (nth_error _ _) as [[r [|]]|]; try (split; reflexivity).
    destruct (Home.handleChatSubmit_fetched _ _); split; reflexivity.
  - cbn. destruct (nth_error _ _) as [[r [|]]|]; split; reflexivity.
  - cbn [Page.upload Page.with_upload]. rewrite select_ignores_drag.
    unfold FileUpload.handleFileSelect.
    destruct files as [[|f rest]|]; try (split; reflexivity);
      destruct (negb _); try (split; reflexivity);
      destruct (N.ltb _ _); split; reflexivity.
  - split; reflexivity.
  - split; reflexivity.
  - cbn [Page.upload Page.with_upload]. rewrite !drop_is_select.
    unfold FileUpload.handleDragLeave. rewrite !select_ignores_drag.
    unfold FileUpload.handleFileSelect.
    destruct files as [[|f rest]|]; try (split; reflexivity);
      destruct (negb _); try (split; reflexivity);
      destruct (N.ltb _ _); split; reflexivity.
  - unfold FileUpload.button_disabled, FileUpload.handleUpload. cbn.
    destruct (FileUpload.file (Page.upload w)); [|split; reflexivity].
    destruct (FileUpload.isUploading (Page.upload w)); [split; reflexivity|].
    destruct o; split; reflexivity.
  - cbn. destruct (nth_error _ _); [|split; reflexivity].
    unfold FileUpload.onprogress. destruct (FileUpload.lengthComputable ev); split; reflexivity.
  - cbn. destruct (nth_error _ _); [|split; reflexivity].
    unfold FileUpload.onload. destruct (Z.eqb _ _); [destruct (FileUpload.response ev)|];
      split; reflexivity.
  - cbn. destruct (nth_error _ _); split; reflexivity.
Qed.

(** ** The ends of the progress *)

Section Ends.
Import JsNumber.
Local Open Scope Q_scope.

(** Property X13.  For a transmission of a positive number of bytes the
    percentage is 0 when nothing is sent and 100 when all is sent,
    rounding included; the notification of the last byte sets the
    progress to 100. *)
Theorem progress_starts_at_0_and_ends_at_100 (bytesTotal : N) :
  (0 < bytesTotal)%N ->
  FileUpload.percent 0 bytesTotal = 0%Z /\
  FileUpload.percent bytesTotal bytesTotal = 100%Z /\
  (forall s,
     FileUpload.uploadProgress
       (FileUpload.onprogress s {| FileUpload.lengthComputable := true;
                                   FileUpload.loaded := bytesTotal;
                                   FileUpload.total := bytesTotal |})
     = Num 100).
Proof.
  intros Ht. pose proof (ofN_pos bytesTotal Ht) as P.
  assert (Full : FileUpload.percent bytesTotal bytesTotal = 100%Z).
  { unfold FileUpload.percent, mul, div.
    change 100%Z with (Math_round (inject_Z 100)). apply Math_round_comp.
    transitivity (binary64 (inject_Z 100)); [|exact binary64_100].
    apply binary64_comp.
    - apply Qmult_le_0_compat; [apply binary64_nonneg, div_nonneg; lra | discriminate].
    - rewrite (binary64_comp (ofN bytesTotal / ofN bytesTotal) (inject_Z 1)).
      + rewrite binary64_1. apply Qmult_1_l.
      + apply div_nonneg; lra.
      + change (inject_Z 1) with 1. field. lra. }
  split; [|split].
  - unfold FileUpload.percent, mul, div.
    change 0%Z with (Math_round 0). apply Math_round_comp.
    assert (Z : binary64 (ofN 0 / ofN bytesTotal) == 0).
    { transitivity (binary64 0); [|reflexivity]. apply binary64_comp.
      - apply div_nonneg; [apply ofN_nonneg | lra].
      - change (ofN 0) with 0. field. lra. }
    transitivity (binary64 0); [|reflexivity]. apply binary64_comp.
    + rewrite Z. discriminate.
    + rewrite Z. ring.
  - exact Full.
  - intros s. unfold FileUpload.onprogress, FileUpload.progress_of.
    cbn [FileUpload.lengthComputable FileUpload.total FileUpload.loaded
         FileUpload.uploadProgress FileUpload.setUploadProgress].
    destruct (N.eqb_spec bytesTotal 0); [lia|]. now rewrite Full.
Qed.

Lemma progress_starts_at_0_and_ends_at_100_witness :
  (0 < 1048576)%N /\ FileUpload.percent 1048576 1048576 = 100%Z.
Proof.
  split; [reflexivity|].
  exact (proj1 (proj2 (progress_starts_at_0_and_ends_at_100 1048576 eq_refl))).
Defined.
End Ends.

(** ** From the upload to the first question *)

Lemma truthy_nonempty s : s <> EmptyString -> JsString.truthy s = true.
Proof. destruct s; [congruence | reflexivity]. Qed.



(** ** The messages of the user *)

Lemma said_assistant c : History.said (Chat.message Chat.assistant c).
Proof. intros H. discriminate H. Qed.

Lemma send_said w :
  Forall History.said (Home.messages (Page.home w)) ->
  Forall History.said (Home.messages (Page.home (Page.send w))).
Proof.
  intros F. unfold Page.send, ChatInterface.handleSendMessage.
  destruct (JsString.truthy (JsString.trim (Page.input w))) eqn:I; cbn [negb orb]; [|exact F].
  rewrite not_loading. unfold Home.handleChatSubmit.
  destruct (negb _); cbn; apply Forall_app; split; try exact F;
    (apply Forall_cons; [|apply Forall_nil]).
  - apply said_assistant.
  - intros _. exact I.
Qed.

Lemma step_said w e :
  Forall History.said (Home.messages (Page.home w)) ->
  Forall History.said (Home.messages (Page.home (Page.step w e))).
Proof.
  intros F. destruct (Page.chat_event e) eqn:C.
  - destruct e; try discriminate; cbn [Page.step].
    + destruct (ChatInterface.input_disabled _); exact F.
    + destruct (ChatInterface.button_disabled _ _); [exact F | apply send_said, F].
    + destruct (ChatInterface.input_disabled _); [exact F|].
      destruct (ChatInterface.handleKeyPress _ _); [apply send_said, F | exact F].
    + destruct (nth_error _ _) as [[r [|]]|]; try exact F.
      destruct o as [|[|]]; cbn; try exact F;
        apply Forall_app; split; try exact F; (apply Forall_cons; [|apply Forall_nil]);
        apply said_assistant.
    + destruct (nth_error _ _) as [[r [|]]|]; try exact F.
      destruct data; cbn; apply Forall_app; split; try exact F;
        (apply Forall_cons; [|apply Forall_nil]); intros H; discriminate H.
  - destruct (upload_event_callback w e C) as [-> | [c ->]]; [exact F|].
    destruct c; cbn; (apply Forall_cons; [|apply Forall_nil]); apply said_assistant.
Qed.

(** Property X15.  From the initial page, after every sequence of
    events, no message of the user in the log is blank. *)
Theorem no_blank_message_of_the_user (es : list Page.Event) :
  Forall History.said (Home.messages (Page.home (Page.run Page.initial es))).
Proof.
  assert (G : forall w, Forall History.said (Home.messages (Page.home w)) ->
                        Forall History.said (Home.messages (Page.home (Page.run w es)))).
  { induction es as [|e es IH]; intros w F; cbn; [exact F|]. apply IH, step_said, F. }
  apply G. constructor.
Qed.

(** ** The text of the size error *)

Lemma upto_in (n : nat) (k : N) : (k <= N.of_nat n)%N -> In k (History.upto n).
Proof.
  intros H. unfold History.upto. rewrite <- (N2Nat.id k). apply in_map, in_seq. lia.
Qed.

(** Property X16.  For a maximum of [k] MiB, [k] from 0 to 1024, the
    text of the size error is "File size exceeds kMB limit" with the
    decimal numeral of [k]. *)
Theorem size_error_names_the_limit (k : N) :
  (k <= 1024)%N ->
  FileUpload.size_message (History.limited k)
  = ("File size exceeds " ++ JsString.of_Z (Z.of_N k) ++ "MB limit")%string.
Proof.
  intros H. apply String.eqb_eq. fold (History.names_limit k).
  assert (A : forallb History.names_limit (History.upto 1024) = true)
    by (vm_compute; reflexivity).
  rewrite forallb_forall in A. apply A, (upto_in 1024). exact H.
Qed.

Lemma size_error_names_the_limit_witness :
  (5 <= 1024)%N /\
  FileUpload.size_message Home.upload_props = "File size exceeds 5MB limit".
Proof.
  split; [discriminate|].
  exact (size_error_names_the_limit 5 ltac:(discriminate)).
Defined.

(** ** An answer that arrives after an upload *)

(** Property X17.  An answer is appended to the log as it is when the
    answer arrives: when an upload is stored while the body of an
    answer is awaited, the log is the upload message followed by that
    answer. *)
Theorem late_answer_follows_the_upload_message
    (w : Page.State) (i j : nat) (r : Api.Request) (t : FileUpload.Transmission)
    (text : string) (result : Api.UploadResult) (data : Api.QueryData) :
  nth_error (Page.submissions w) i
  = Some {| Page.request := r; Page.stage := Page.AwaitingBody |} ->
  nth_error (Page.xhrs w) j = Some t ->
  let stored := Page.XhrLoad j {| FileUpload.status := 200;
                                  FileUpload.statusText := text;
                                  FileUpload.response := Some result |} in
  Home.messages (Page.home (Page.run w [stored; Page.JsonSettled i (Some data)]))
  = [Chat.message Chat.assistant (Home.uploaded_text (Api.documentName result));
     {| Chat.id := None; Chat.type := Chat.assistant;
        Chat.content := Api.answer data; Chat.sources := Api.sources data |}].
Proof.
  intros S X. cbv zeta. cbn [Page.run fold_left Page.step]. rewrite X.
  cbn. rewrite S. reflexivity.
Qed.

(** Property X18.  The events of the question field and of the answer
    service leave the upload component, the transmissions and the
    document of the page as they are; the events of the upload leave
    the question field and the submissions in flight as they are. *)
Theorem chat_and_upload_keep_apart (w : Page.State) (e : Page.Event) :
  let w' := Page.step w e in
  if Page.chat_event e
  then Page.upload w' = Page.upload w /\ Page.xhrs w' = Page.xhrs w /\
       Home.documentId (Page.home w') = Home.documentId (Page.home w) /\
       Home.documentName (Page.home w') = Home.documentName (Page.home w)
  else Page.input w' = Page.input w /\ Page.submissions w' = Page.submissions w.
Proof.
  cbv zeta. destruct (Page.chat_event e) eqn:C.
  - destruct (chat_event_frame w e C) as (U & X & _). split; [exact U|]. split; [exact X|].
    destruct e; try discriminate; cbn [Page.step].
    + destruct (ChatInterface.input_disabled _); split; reflexivity.
    + destruct (ChatInterface.button_disabled _ _); [split; reflexivity|].
      unfold Page.send. destruct (ChatInterface.handleSendMessage _ _); [split; reflexivity|].
      unfold Home.handleChatSubmit. destruct (negb _); split; reflexivity.
    + destruct (ChatInterface.input_disabled _); [split; reflexivity|].
      destruct (ChatInterface.handleKeyPress _ _); [|split; reflexivity].
      unfold Page.send. destruct (ChatInterface.handleSendMessage _ _); [split; reflexivity|].
      unfold Home.handleChatSubmit. destruct (negb _); split; reflexivity.
    + destruct (nth_error _ _) as [[r [|]]|]; try (split; reflexivity).
      destruct o as [|[|]]; split; reflexivity.
    + destruct (nth_error _ _) as [[r [|]]|]; try (split; reflexivity).
      destruct data; split; reflexivity.
  - destruct e; try discriminate; cbn [Page.step]; try (split; reflexivity).
    + destruct (FileUpload.button_disabled _); [split; reflexivity|].
      unfold FileUpload.handleUpload. destruct (FileUpload.file _); [|split; reflexivity].
      destruct o; split; reflexivity.
    + destruct (nth_error _ _); split; reflexivity.
    + destruct (nth_error _ _); split; reflexivity.
    + destruct (nth_error _ _); split; reflexivity.
Qed.

(** Property X19.  From the initial page, after every sequence of
    events, the flag is up whenever a transmission is in flight. *)
Theorem flag_is_up_during_transmission (es : list Page.Event) :
  let w := Page.run Page.initial es in
  Page.xhrs w = [] \/ FileUpload.isUploading (Page.upload w) = true.
Proof.
  cbv zeta.
  destruct (one_transmission_run es _ one_transmission_initial) as [X | [U _]]; auto.
Qed.

Lemma late_answer_follows_the_upload_message_witness :
  let w := Page.run Scenario.asked
             [Page.FetchSettled 0 (Home.Responded true);
              Page.ClickUpload FileUpload.Sent] in
  nth_error (Page.submissions w) 0
  = Some {| Page.request := Home.query (Some "doc-1") Scenario.revenue;
            Page.stage := Page.AwaitingBody |} /\
  nth_error (Page.xhrs w) 0
  = Some {| FileUpload.method := "POST"; FileUpload.url := "/api/upload";
            FileUpload.formData := [("file", Scenario.report)] |} /\
  Home.messages
    (Page.home
       (Page.run w
          [Page.XhrLoad 0 {| FileUpload.status := 200; FileUpload.statusText := "OK";
                             FileUpload.response := Some Scenario.stored |};
           Page.JsonSettled 0 (Some Scenario.reply)]))
  = [Chat.message Chat.assistant (Home.uploaded_text "Q3-Report.pdf");
     {| Chat.id := None; Chat.type := Chat.assistant;
        Chat.content := Api.answer Scenario.reply;
        Chat.sources := Api.sources Scenario.reply |}].
Proof.
  cbv zeta. split; [reflexivity|]. split; [reflexivity|].
  exact (late_answer_follows_the_upload_message
           (Page.run Scenario.asked
              [Page.FetchSettled 0 (Home.Responded true);
               Page.ClickUpload FileUpload.Sent])
           0 0 _ _ "OK" Scenario.stored Scenario.reply eq_refl eq_refl).
Defined.
